(** * Telegram-Knowledge-Bot: the document-processing pipeline in Rocq

    A shallow embedding of the retry wrapper, the summarizer, the keyword
    extractor, the plain-text parser and the pipeline orchestrator, with the
    properties the specification states about them.

    Conventions.
    - A Python [str] is a list of Unicode code points ([PyStr.str]).
    - A Python [int] is a [Z]; a Python [float] is a value of an abstract
      type [F] with the operations of [FloatOps].
    - A call that may raise returns a [Result]; effectful code is a function
      from the state of the outside world to a [Result] and a new state.
    - What lies outside the repository (the generation service, the phrase
      scorer, the file system, the clock, the random generator, the audit
      logger) is a field of a record of operations on an abstract world. *)

From Stdlib Require Import ZArith NArith List Bool Lia String Ascii QArith.
Import ListNotations.

Set Implicit Arguments.
Local Open Scope Z_scope.

(* ================================================================== *)
(** * Python strings *)
(* ================================================================== *)

Module PyStr.

Definition char := N.
Definition str := list char.

  (** A string literal of the source: the code points of its UTF-8 bytes. *)
Fixpoint utf8_decode (pending : nat) (acc : N) (bytes : list N) : str :=
    match bytes with
    | [] => []
    | b :: rest =>
        match pending with
        | O =>
            if (b <? 128)%N then b :: utf8_decode 0 0%N rest
            else if (b <? 224)%N then utf8_decode 1 (b mod 32)%N rest
            else if (b <? 240)%N then utf8_decode 2 (b mod 16)%N rest
            else utf8_decode 3 (b mod 8)%N rest
        | S k =>
            let acc' := (acc * 64 + b mod 64)%N in
            match k with
            | O => acc' :: utf8_decode 0 0%N rest
            | S _ => utf8_decode k acc' rest
            end
        end
    end.

Definition lit (s : string) : str :=
    utf8_decode 0 0%N (List.map N_of_ascii (list_ascii_of_string s)).

Arguments lit : simpl never.

Definition newline : str := [10%N].

Definition len (s : str) : Z := Z.of_nat (List.length s).

Definition char_eqb : char -> char -> bool := N.eqb.

Fixpoint eqb (a b : str) : bool :=
    match a, b with
    | [], [] => true
    | x :: a', y :: b' => char_eqb x y && eqb a' b'
    | _, _ => false
    end.

  (** [str.isspace] on one character, which is also the class [\s] of [re]
      on a [str] pattern: the Unicode white-space code points. *)
Definition isspace (c : char) : bool :=
    ((9 <=? c) && (c <=? 13) || (28 <=? c) && (c <=? 32)
     || (c =? 133) || (c =? 160) || (c =? 5760)
     || (8192 <=? c) && (c <=? 8202)
     || (c =? 8232) || (c =? 8233) || (c =? 8239) || (c =? 8287)
     || (c =? 12288))%N.

Fixpoint lstrip (s : str) : str :=
    match s with
    | c :: s' => if isspace c then lstrip s' else s
    | [] => []
    end.

Definition rstrip (s : str) : str := rev (lstrip (rev s)).

  (** [s.strip()] *)
Definition strip (s : str) : str := rstrip (lstrip s).

  (** Truth value of a string: [bool(s)]. *)
Definition truthy (s : str) : bool :=
    match s with [] => false | _ => true end.

Fixpoint startswith (p s : str) : bool :=
    match p, s with
    | [], _ => true
    | x :: p', y :: s' => char_eqb x y && startswith p' s'
    | _ :: _, [] => false
    end.

  (** [needle in s] *)
Fixpoint contains (needle s : str) : bool :=
    startswith needle s
    || match s with
       | [] => false
       | _ :: s' => contains needle s'
       end.

  (** [s.split()]: the maximal runs of characters that are not white space. *)
Fixpoint split_ws_aux (cur : str) (s : str) : list str :=
    match s with
    | [] => match cur with [] => [] | _ => [rev cur] end
    | c :: s' =>
        if isspace c
        then match cur with
             | [] => split_ws_aux [] s'
             | _ => rev cur :: split_ws_aux [] s'
             end
        else split_ws_aux (c :: cur) s'
    end.

Definition split_ws (s : str) : list str := split_ws_aux [] s.

  (** [sep.join(parts)] *)
Fixpoint join (sep : str) (parts : list str) : str :=
    match parts with
    | [] => []
    | [p] => p
    | p :: rest => p ++ sep ++ join sep rest
    end.

  (** [str(n)] for an [int]. *)
Fixpoint uint_codes (d : Decimal.uint) : str :=
    match d with
    | Decimal.Nil => []
    | Decimal.D0 d' => 48%N :: uint_codes d'
    | Decimal.D1 d' => 49%N :: uint_codes d'
    | Decimal.D2 d' => 50%N :: uint_codes d'
    | Decimal.D3 d' => 51%N :: uint_codes d'
    | Decimal.D4 d' => 52%N :: uint_codes d'
    | Decimal.D5 d' => 53%N :: uint_codes d'
    | Decimal.D6 d' => 54%N :: uint_codes d'
    | Decimal.D7 d' => 55%N :: uint_codes d'
    | Decimal.D8 d' => 56%N :: uint_codes d'
    | Decimal.D9 d' => 57%N :: uint_codes d'
    end.

Definition of_int (n : Z) : str :=
    match Z.to_int n with
    | Decimal.Pos d => uint_codes d
    | Decimal.Neg d => 45%N :: uint_codes d
    end.

  (** [x or default] on an optional string. *)
Definition or_else (x : option str) (default : str) : str :=
    match x with
    | Some s => if truthy s then s else default
    | None => default
    end.

End PyStr.

Import PyStr.

(* ================================================================== *)
(** * Exceptions and effectful computations *)
(* ================================================================== *)

(** The exception classes the pipeline raises or names in an [except]
    clause. [KeyboardInterrupt] stands for the classes that derive from
    [BaseException] only; [OtherError] for a library's own subclass of
    [Exception]. *)
Inductive ExnClass :=
| KeyboardInterrupt
| Exception
| RuntimeError
| ValueError
| UnicodeDecodeError
| LookupError
| IndexError
| AttributeError
| ImportError
| OSError
| ZeroDivisionError
| OverflowError
| OtherError (name : str).

(** [issubclass c parent] *)
Definition issubclass (c parent : ExnClass) : bool :=
  match parent, c with
  | KeyboardInterrupt, KeyboardInterrupt => true
  | KeyboardInterrupt, _ => false
  | Exception, KeyboardInterrupt => false
  | Exception, _ => true
  | RuntimeError, RuntimeError => true
  | ValueError, (ValueError | UnicodeDecodeError) => true
  | UnicodeDecodeError, UnicodeDecodeError => true
  | LookupError, (LookupError | IndexError) => true
  | IndexError, IndexError => true
  | AttributeError, AttributeError => true
  | ImportError, ImportError => true
  | OSError, OSError => true
  | ZeroDivisionError, ZeroDivisionError => true
  | OverflowError, OverflowError => true
  | OtherError p, OtherError n => PyStr.eqb p n
  | _, _ => false
  end.

(** A raised exception: its class and [str(e)]. *)
Record PyExn := mkExn { exn_class : ExnClass; exn_str : str }.

(** [isinstance(e, classes)] for the tuple of an [except] clause. *)
Definition exn_matches (e : PyExn) (classes : list ExnClass) : bool :=
  existsb (issubclass (exn_class e)) classes.

Inductive Result (A : Type) :=
| Return (a : A)
| Raise (e : PyExn).
Arguments Return {A} a.
Arguments Raise {A} e.

(** A computation on the world [X] that returns an [A] or raises. *)
Definition M (X A : Type) := X -> Result A * X.

Definition ret {X A} (a : A) : M X A := fun x => (Return a, x).
Definition raise {X A} (e : PyExn) : M X A := fun x => (Raise e, x).

Definition bind {X A B} (m : M X A) (k : A -> M X B) : M X B :=
  fun x =>
    match m x with
    | (Return a, x') => k a x'
    | (Raise e, x') => (Raise e, x')
    end.

(** [try: body  except classes as e: handler e] *)
Definition try_except {X A} (body : M X A) (classes : list ExnClass)
                      (handler : PyExn -> M X A) : M X A :=
  fun x =>
    match body x with
    | (Return a, x') => (Return a, x')
    | (Raise e, x') =>
        if exn_matches e classes then handler e x' else (Raise e, x')
    end.

(** A call that cannot raise. *)
Definition total {X A} (f : X -> A * X) : M X A :=
  fun x => let (a, x') := f x in (Return a, x').

Declare Scope py_scope.
Delimit Scope py_scope with py.
Notation "x <- m ;; k" := (bind m (fun x => k))
  (at level 61, m at next level, right associativity) : py_scope.
Notation "' pat <- m ;; k" :=
  (bind m (fun x => match x with pat => k end))
  (at level 61, pat pattern, m at next level, right associativity) : py_scope.
Notation "m ;;; k" := (bind m (fun _ => k))
  (at level 61, right associativity) : py_scope.

(** A computation on [X] run inside a world that also holds an object
    [S] (the [self] of a method). *)
Definition lift_world {S X A} (m : M X A) : M (S * X) A :=
  fun st =>
    match m (snd st) with
    | (r, x') => (r, (fst st, x'))
    end.

Definition get_self {S X} : M (S * X) S := fun st => (Return (fst st), st).
Definition set_self {S X} (s : S) : M (S * X) unit :=
  fun st => (Return tt, (s, snd st)).

(** The functions of [str] that need the Unicode character database. *)
Class UnicodeOps := {
  py_lower : str -> str;
  py_isalpha : char -> bool
}.

(* ================================================================== *)
(** * Floating-point numbers *)
(* ================================================================== *)

(** The operations on [float] the pipeline uses. [f_pow] is
    [float ** int], which raises (overflow, zero to a negative power);
    [f_lit] is the value of a decimal literal. *)
Class FloatOps (F : Type) := {
  f_lit : Q -> F;
  f_add : F -> F -> F;
  f_sub : F -> F -> F;
  f_mul : F -> F -> F;
  f_ltb : F -> F -> bool;
  f_pow : F -> Z -> Result F
}.

(** The builtin [min(a, b)]: [b] when [b < a], otherwise [a]. *)
Definition py_min {F} `{FloatOps F} (a b : F) : F :=
  if f_ltb b a then b else a.

(* ================================================================== *)
(** * models/enums.py *)
(* ================================================================== *)

Module Enums.

Inductive FileType := PDF | DOCX | TXT | MD.

Definition FileType_value (t : FileType) : str :=
    match t with
    | PDF => lit "pdf" | DOCX => lit "docx" | TXT => lit "txt" | MD => lit "md"
    end.

Inductive ProcessingStatus := PENDING | PROCESSING | COMPLETED | FAILED.

Definition ProcessingStatus_value (s : ProcessingStatus) : str :=
    match s with
    | PENDING => lit "pending" | PROCESSING => lit "processing"
    | COMPLETED => lit "completed" | FAILED => lit "failed"
    end.

Inductive ErrorScenario :=
  | FILE_TOO_LARGE | UNSUPPORTED_FORMAT | CORRUPTED_FILE | PASSWORD_PROTECTED
  | EMPTY_DOCUMENT | OCR_FAILED | API_RATE_LIMIT | API_TIMEOUT | API_ERROR
  | SHEETS_AUTH_ERROR | SHEETS_WRITE_ERROR | URL_INVALID.

Definition ErrorScenario_value (s : ErrorScenario) : str :=
    match s with
    | FILE_TOO_LARGE => lit "file_too_large"
    | UNSUPPORTED_FORMAT => lit "unsupported_format"
    | CORRUPTED_FILE => lit "corrupted_file"
    | PASSWORD_PROTECTED => lit "password_protected"
    | EMPTY_DOCUMENT => lit "empty_document"
    | OCR_FAILED => lit "ocr_failed"
    | API_RATE_LIMIT => lit "api_rate_limit"
    | API_TIMEOUT => lit "api_timeout"
    | API_ERROR => lit "api_error"
    | SHEETS_AUTH_ERROR => lit "sheets_auth_error"
    | SHEETS_WRITE_ERROR => lit "sheets_write_error"
    | URL_INVALID => lit "url_invalid"
    end.

Inductive ExtractionMethod :=
  | PYPDF2 | PDFPLUMBER | PYTHON_DOCX | PLAIN_READ
  | TESSERACT_OCR | GOOGLE_VISION_OCR.

Definition ExtractionMethod_value (m : ExtractionMethod) : str :=
    match m with
    | PYPDF2 => lit "pypdf2" | PDFPLUMBER => lit "pdfplumber"
    | PYTHON_DOCX => lit "python_docx" | PLAIN_READ => lit "plain_read"
    | TESSERACT_OCR => lit "tesseract_ocr"
    | GOOGLE_VISION_OCR => lit "google_vision_ocr"
    end.

Inductive AIModel :=
  | OPENAI_GPT4 | OPENAI_GPT35 | YANDEX_GPT | CLAUDE_3 | CLAUDE_2.

Definition AIModel_value (m : AIModel) : str :=
    match m with
    | OPENAI_GPT4 => lit "openai_gpt4" | OPENAI_GPT35 => lit "openai_gpt35"
    | YANDEX_GPT => lit "yandex_gpt" | CLAUDE_3 => lit "claude_3"
    | CLAUDE_2 => lit "claude_2"
    end.

End Enums.

(* ================================================================== *)
(** * models/config.py: RetryConfig *)
(* ================================================================== *)

Module Config.
Section RetryConfig.
Context {F : Type} `{FloatOps F}.

Record RetryConfig := mkRetryConfig {
    max_retries : Z;
    base_delay : F;
    max_delay : F;
    exponential_base : F;
    jitter : bool
  }.

  (** The dataclass defaults. *)
Definition default_RetryConfig : RetryConfig :=
    mkRetryConfig 3 (f_lit 1) (f_lit 30) (f_lit 2) true.

Context {X : Type}.
  (** [random.random()] *)
Variable random_random : X -> F * X.

Definition get_delay (self : RetryConfig) (attempt : Z) : M X F :=
    (p <- (fun x => (f_pow (exponential_base self) attempt, x)) ;;
     let delay := py_min (f_mul (base_delay self) p) (max_delay self) in
     if jitter self
     then r <- total random_random ;;
          ret (f_mul delay (f_add (f_lit (1 # 2)) r))
     else ret delay)%py.

End RetryConfig.
Arguments RetryConfig F : clear implicits.
End Config.

(* ================================================================== *)
(** * utils/retry_handler.py *)
(* ================================================================== *)

Module Retry.
Import Config.
Section RetryHandler.
Context {F : Type} `{FloatOps F}.
Context {X : Type}.
  (** [random.random()] and [time.sleep(delay)] *)
Variable random_random : X -> F * X.
Variable time_sleep : F -> M X unit.

Record RetryHandler := mkRetryHandler {
    config : RetryConfig F;
    _attempt_count : Z;
    _last_delay : F
  }.

  (** [RetryHandler(config)] *)
Definition new (cfg : option (RetryConfig F)) : RetryHandler :=
    mkRetryHandler
      (match cfg with Some c => c | None => default_RetryConfig end)
      0 (f_lit 0).

Definition attempt_count (self : RetryHandler) : Z := _attempt_count self.
Definition last_delay (self : RetryHandler) : F := _last_delay self.

Definition set_attempt_count (self : RetryHandler) (n : Z) : RetryHandler :=
    mkRetryHandler (config self) n (_last_delay self).
Definition set_last_delay (self : RetryHandler) (d : F) : RetryHandler :=
    mkRetryHandler (config self) (_attempt_count self) d.

  (** [range(n)] *)
Definition range (n : Z) : list Z :=
    List.map Z.of_nat (seq 0 (Z.to_nat n)).

Section Execute.
Context {T : Type}.
Variable func : M X T.
Variable retryable_errors : list ExnClass.

    (** The body of [for attempt in range(max_retries + 1)], over the
        attempts still to make, and the two statements after the loop. *)
Fixpoint retry_loop (attempts : list Z) (last_exception : option PyExn)
                        (self : RetryHandler) (x : X)
      : Result T * RetryHandler * X :=
      match attempts with
      | [] =>
          match last_exception with
          | Some e => (Raise e, self, x)
          | None =>
              (Raise (mkExn RuntimeError
                            (lit "Unexpected state in retry handler")),
               self, x)
          end
      | attempt :: rest =>
          let self := set_attempt_count self (attempt + 1) in
          match func x with
          | (Return v, x1) => (Return v, self, x1)
          | (Raise e, x1) =>
              if exn_matches e retryable_errors then
                if attempt <? max_retries (config self) then
                  match get_delay random_random (config self) attempt x1 with
                  | (Raise e', x2) => (Raise e', self, x2)
                  | (Return delay, x2) =>
                      let self := set_last_delay self delay in
                      match time_sleep delay x2 with
                      | (Raise e', x3) => (Raise e', self, x3)
                      | (Return _, x3) => retry_loop rest (Some e) self x3
                      end
                  end
                else (Raise e, self, x1)
              else (Raise e, self, x1)
          end
      end.

Definition execute_with_retry (self : RetryHandler) (x : X)
      : Result T * RetryHandler * X :=
      let self := set_attempt_count self 0 in
      retry_loop (range (max_retries (config self) + 1)) None self x.

End Execute.

End RetryHandler.
Arguments RetryHandler F : clear implicits.

Import Enums.

Definition RETRYABLE_SCENARIOS : list ErrorScenario :=
  [API_RATE_LIMIT; API_TIMEOUT; API_ERROR; SHEETS_AUTH_ERROR;
   SHEETS_WRITE_ERROR].

Definition is_retryable (error_scenario : ErrorScenario) : bool :=
  match error_scenario with
  | API_RATE_LIMIT | API_TIMEOUT | API_ERROR
  | SHEETS_AUTH_ERROR | SHEETS_WRITE_ERROR => true
  | _ => false
  end.

End Retry.

(* ================================================================== *)
(** * models/metadata.py, models/results.py, models/storage.py *)
(* ================================================================== *)

Module Models.
Import Enums.

  (** A naive [datetime] and its [isoformat()]. *)
Record datetime := mkDatetime {
    year : Z; month : Z; day : Z;
    hour : Z; minute : Z; second : Z; microsecond : Z
  }.

  (** [format(n, "0{width}d")] for a field of a date, which is not
      negative. *)
Definition zero_pad (width : nat) (n : Z) : str :=
    let digits := of_int n in
    repeat 48%N (width - List.length digits) ++ digits.

Definition isoformat (d : datetime) : str :=
    zero_pad 4 (year d) ++ lit "-" ++ zero_pad 2 (month d) ++ lit "-"
    ++ zero_pad 2 (day d) ++ lit "T" ++ zero_pad 2 (hour d) ++ lit ":"
    ++ zero_pad 2 (minute d) ++ lit ":" ++ zero_pad 2 (second d)
    ++ (if microsecond d =? 0 then []
        else lit "." ++ zero_pad 6 (microsecond d)).

Record Metadata := mkMetadata {
    file_name : str;
    file_size : Z;
    file_type : FileType;
    uploader_id : Z;
    timestamp : datetime;
    uploader_username : option str;
    language : option str;
    source_url : option str;
    telegram_file_id : option str
  }.

  (** [metadata.language = language] *)
Definition set_language (m : Metadata) (l : str) : Metadata :=
    mkMetadata (file_name m) (file_size m) (file_type m) (uploader_id m)
               (timestamp m) (uploader_username m) (Some l)
               (source_url m) (telegram_file_id m).

  (** [Metadata._validate], run by [__post_init__]. *)
Definition Metadata_validate (m : Metadata) : Result unit :=
    if negb (truthy (file_name m)) || negb (truthy (strip (file_name m)))
    then Raise (mkExn ValueError (lit "file_name cannot be empty"))
    else if file_size m <? 0
    then Raise (mkExn ValueError (lit "file_size cannot be negative"))
    else if uploader_id m <=? 0
    then Raise (mkExn ValueError
                      (lit "uploader_id must be a positive integer"))
    else Return tt.

Section Results.
Context {F : Type}.

Record ValidationResult := mkValidationResult {
    is_valid : bool;
    vr_error_message : option str;
    vr_error_scenario : option ErrorScenario
  }.

Record ParseResult := mkParseResult {
    text : str;
    char_count : Z;
    pr_success : bool;
    pr_extraction_method : ExtractionMethod;
    pr_error_message : option str;
    pr_error_scenario : option ErrorScenario;
    used_ocr : bool;
    ocr_confidence : option F
  }.

  (** The constructor of the dataclass followed by [__post_init__]. *)
Definition ParseResult_new (text : str) (char_count : Z) (success : bool)
      (extraction_method : ExtractionMethod) (error_message : option str)
      (error_scenario : option ErrorScenario) (used_ocr : bool)
      (ocr_confidence : option F) : ParseResult :=
    let char_count :=
      if success && (char_count =? 0) && truthy text
      then len text else char_count in
    mkParseResult text char_count success extraction_method error_message
                  error_scenario used_ocr ocr_confidence.

Record SummaryResult := mkSummaryResult {
    summary : str;
    sentence_count : Z;
    sr_language : str;
    sr_success : bool;
    ai_model_used : AIModel;
    tokens_used : option Z;
    sr_error_message : option str;
    sr_error_scenario : option ErrorScenario
  }.

Record KeywordsResult := mkKeywordsResult {
    keywords : list str;
    formatted : str;
    count : Z;
    kr_success : bool;
    kr_extraction_method : str;
    kr_error_message : option str;
    kr_error_scenario : option ErrorScenario
  }.

Definition KeywordsResult_new (keywords : list str) (formatted : str)
      (count : Z) (success : bool) (extraction_method : str)
      (error_message : option str) (error_scenario : option ErrorScenario)
      : KeywordsResult :=
    let count :=
      if success && (count =? 0)
         && match keywords with [] => false | _ => true end
      then Z.of_nat (List.length keywords) else count in
    mkKeywordsResult keywords formatted count success extraction_method
                     error_message error_scenario.

Record ProcessingResult := mkProcessingResult {
    metadata : Metadata;
    parse_result : ParseResult;
    summary_result : SummaryResult;
    keywords_result : KeywordsResult;
    status : ProcessingStatus;
    processing_time : F;
    error_scenario : option ErrorScenario
  }.

Record GoogleSheetsRow := mkGoogleSheetsRow {
    row_timestamp : str;
    row_uploader_id : str;
    row_uploader_username : str;
    row_file_name : str;
    row_file_type : str;
    row_file_size : Z;
    row_char_count : Z;
    row_language : str;
    row_summary : str;
    row_keywords : str;
    row_status : str;
    row_error_message : str;
    row_ai_model_used : str;
    row_extraction_method : str;
    row_ocr_used : bool;
    row_processing_time : F
  }.

Definition has_required_fields (r : GoogleSheetsRow) : bool :=
    truthy (row_timestamp r)
    && (truthy (row_uploader_id r) || truthy (row_uploader_username r))
    && truthy (row_file_name r)
    && truthy (row_summary r)
    && truthy (row_keywords r).

End Results.
Arguments ParseResult F : clear implicits.
Arguments ProcessingResult F : clear implicits.
Arguments GoogleSheetsRow F : clear implicits.

End Models.

(* ================================================================== *)
(** * ai/base.py and ai/openai_summarizer.py *)
(* ================================================================== *)

Module Summarizer.
Import Enums Models.

  (** The keyword arguments of [client.chat.completions.create]. *)
Record Request (F : Type) := mkRequest {
    req_model : str;
    req_system : str;
    req_user : str;
    req_max_tokens : Z;
    req_temperature : F
  }.

  (** What the summarizer reads of a reply: the content of each choice
      ([None] when the message has none) and [usage.total_tokens]. *)
Record Response := mkResponse {
    choices : list (option str);
    usage : option Z
  }.

Definition is_terminal (c : char) : bool :=
    ((c =? 46) || (c =? 33) || (c =? 63))%N.

  (** [re.split(r'(?<=[.!?])\s+', s)]: a separator is a maximal run of
      white space that starts right after one of [.], [!], [?]. [prev] is
      the character before the current one, [in_match] tells that a
      separator is being read, [cur] is the piece read so far, reversed. *)
Fixpoint re_split_sentences (prev : option char) (in_match : bool)
                              (cur : str) (s : str) : list str :=
    match s with
    | [] => [rev cur]
    | c :: s' =>
        if isspace c then
          if in_match then re_split_sentences (Some c) true cur s'
          else if match prev with Some p => is_terminal p | None => false end
          then rev cur :: re_split_sentences (Some c) true [] s'
          else re_split_sentences (Some c) false (c :: cur) s'
        else re_split_sentences (Some c) false (c :: cur) s'
    end.

  (** [AISummarizer._count_sentences] *)
Definition _count_sentences (text : str) : Z :=
    if negb (truthy text) || negb (truthy (strip text)) then 0
    else
      let sentences := re_split_sentences None false [] (strip text) in
      let sentences := filter (fun s => truthy (strip s)) sentences in
      Z.of_nat (List.length sentences).

Definition lang_instruction (language : str) : str :=
    if PyStr.eqb language (lit "ru")
    then lit "на русском языке" else lit "in English".

  (** [AISummarizer._build_prompt] *)
Definition _build_prompt (text language : str) : str :=
    lit "Создай краткое резюме следующего текста "
    ++ lang_instruction language ++ lit "." ++ newline
    ++ lit "Резюме должно содержать от 3 до 7 предложений." ++ newline
    ++ lit "Резюме должно точно отражать основные темы и ключевые моменты документа."
    ++ newline ++ newline
    ++ lit "Текст:" ++ newline
    ++ text ++ newline ++ newline
    ++ lit "Резюме:".

Definition MIN_SENTENCES : Z := 3.
Definition MAX_SENTENCES : Z := 7.
Definition MIN_TEXT_FOR_SUMMARY : Z := 100.

  (** The prompt of [_adjust_summary]. *)
Definition adjust_prompt (text language : str) (current_count : Z) : str :=
    let instruction :=
      if current_count <? MIN_SENTENCES
      then lit "Создай резюме ровно из " ++ of_int MIN_SENTENCES
           ++ lit " предложений"
      else lit "Создай резюме ровно из " ++ of_int MAX_SENTENCES
           ++ lit " предложений" in
    instruction ++ lit " " ++ lang_instruction language ++ lit "." ++ newline
    ++ lit "Резюме должно точно отражать основные темы и ключевые моменты документа."
    ++ newline ++ newline
    ++ lit "Текст:" ++ newline
    ++ text ++ newline ++ newline
    ++ lit "Резюме:".

Definition SYSTEM_MESSAGE : str :=
    lit "Ты - помощник для создания кратких резюме документов.".

Section OpenAISummarizer.
Context {F : Type} {U : UnicodeOps}.
Context {X Client : Type}.
  (** [openai.OpenAI(api_key=..., base_url=...)] and
      [client.chat.completions.create(...)]. *)
Variable OpenAI_new : str -> option str -> M X Client.
Variable chat_completions_create : Client -> Request F -> M X Response.

Record OpenAISummarizer := mkOpenAISummarizer {
    api_key : str;
    model : str;
    max_tokens : Z;
    temperature : F;
    base_url : option str;
    _client : option Client
  }.

Definition Self := OpenAISummarizer.

Definition set_client (self : Self) (c : Client) : Self :=
    mkOpenAISummarizer (api_key self) (model self) (max_tokens self)
                       (temperature self) (base_url self) (Some c).

  (** The property [client]: the handle is built on first use. *)
Definition client : M (Self * X) Client :=
    (self <- get_self ;;
     match _client self with
     | Some c => ret c
     | None =>
         c <- lift_world
                (if truthy (or_else (base_url self) [])
                 then OpenAI_new (api_key self) (base_url self)
                 else OpenAI_new (api_key self) None) ;;
         set_self (set_client self c) ;;;
         ret c
     end)%py.

Definition _get_ai_model (self : Self) : AIModel :=
    if contains (lit "gpt-4") (model self) then OPENAI_GPT4 else OPENAI_GPT35.

Definition _call_api_with_tokens (prompt : str) : M (Self * X) (str * Z) :=
    (c <- client ;;
     self <- get_self ;;
     response <- lift_world
       (chat_completions_create c
          (mkRequest (model self) SYSTEM_MESSAGE prompt (max_tokens self)
                     (temperature self))) ;;
     match choices response with
     | [] => raise (mkExn IndexError (lit "list index out of range"))
     | None :: _ =>
         raise (mkExn AttributeError
                      (lit "'NoneType' object has no attribute 'strip'"))
     | Some content :: _ =>
         let content := strip content in
         let tokens := match usage response with Some t => t | None => 0 end in
         ret (content, tokens)
     end)%py.

Definition _adjust_summary (text language : str) (current_count : Z)
                             (tokens_used : Z) : M (Self * X) (str * Z) :=
    (' (summary, new_tokens) <-
        _call_api_with_tokens (adjust_prompt text language current_count) ;;
     ret (summary, tokens_used + new_tokens))%py.

Definition _classify_error (error : PyExn) : ErrorScenario :=
    let error_str := py_lower (exn_str error) in
    if contains (lit "rate limit") error_str
       || contains (lit "rate_limit") error_str
    then API_RATE_LIMIT
    else if contains (lit "timeout") error_str then API_TIMEOUT
    else API_ERROR.

Definition summarize (text language : str) : M (Self * X) SummaryResult :=
    fun st =>
      if len text <? MIN_TEXT_FOR_SUMMARY then
        let sentence_count := _count_sentences text in
        (Return (mkSummaryResult text sentence_count language true
                   (_get_ai_model (fst st)) (Some 0) None None), st)
      else
        try_except
          (let prompt := _build_prompt text language in
           ' (summary, tokens_used) <- _call_api_with_tokens prompt ;;
           let sentence_count := _count_sentences summary in
           ' (summary, tokens_used, sentence_count) <-
              (if (sentence_count <? MIN_SENTENCES)
                  || (sentence_count >? MAX_SENTENCES)
               then
                 ' (summary, tokens_used) <-
                    _adjust_summary text language sentence_count tokens_used ;;
                 ret (summary, tokens_used, _count_sentences summary)
               else ret (summary, tokens_used, sentence_count)) ;;
           self <- get_self ;;
           ret (mkSummaryResult summary sentence_count language true
                  (_get_ai_model self) (Some tokens_used) None None))%py
          [Exception]
          (fun e =>
             self <- get_self ;;
             ret (mkSummaryResult [] 0 language false (_get_ai_model self)
                    None (Some (exn_str e)) (Some (_classify_error e))))%py
          st.

End OpenAISummarizer.
Arguments OpenAISummarizer F Client : clear implicits.

End Summarizer.

(* ================================================================== *)
(** * ai/keyword_extractor.py *)
(* ================================================================== *)

Module Keywords.
Import Enums Models.

  (** The arguments of [yake.KeywordExtractor]. *)
Record YakeArgs (F : Type) := mkYakeArgs {
    lan : str;
    n : Z;
    dedupLim : F;
    dedupFunc : str;
    windowsSize : Z;
    top : Z
  }.

Definition MIN_KEYWORDS : Z := 5.
Definition MAX_KEYWORDS : Z := 10.
Definition DEFAULT_MAX_NGRAM_SIZE : Z := 2.
Definition DEFAULT_DEDUPLICATION_ALGO : str := lit "seqm".
Definition DEFAULT_WINDOW_SIZE : Z := 1.

  (** The slice [l[:k]]. *)
Definition slice_to {A} (k : Z) (l : list A) : list A :=
    if 0 <=? k then firstn (Z.to_nat k) l
    else firstn (List.length l - Z.to_nat (- k)) l.

Definition format_keywords (keywords : list str) : str :=
    join (lit ", ") keywords.

Definition _map_language_to_yake (language : str) : str :=
    if PyStr.eqb language (lit "ru") then lit "ru"
    else if PyStr.eqb language (lit "en") then lit "en"
    else lit "en".

Section KeywordExtractor.
Context {F : Type} `{FloatOps F} {U : UnicodeOps}.
Context {X : Type}.
  (** [yake.KeywordExtractor(...).extract_keywords(text)]: the candidate
      phrases with their scores. *)
Variable yake_extract_keywords : YakeArgs F -> str -> M X (list (str * F)).
  (** [LanguageDetector.detect] of ai/language_detector.py, a function of
      the text alone; the extractor only passes its answer on. *)
Variable LanguageDetector_detect : str -> str.

Record KeywordExtractor := mkKeywordExtractor {
    method : str;
    max_ngram_size : Z;
    deduplication_threshold : F;
    window_size : Z
  }.

  (** [KeywordExtractor()] *)
Definition default_KeywordExtractor : KeywordExtractor :=
    mkKeywordExtractor (lit "yake") DEFAULT_MAX_NGRAM_SIZE (f_lit (9 # 10))
                       DEFAULT_WINDOW_SIZE.

  (** The loop of [_clean_keywords]; [seen] is the set of lowered phrases
      met so far. *)
Fixpoint clean_loop (keywords : list str) (seen : list str) : list str :=
    match keywords with
    | [] => []
    | kw :: rest =>
        let kw := join (lit " ") (split_ws kw) in
        if len kw <? 2 then clean_loop rest seen
        else
          let kw_lower := py_lower kw in
          if existsb (PyStr.eqb kw_lower) seen then clean_loop rest seen
          else
            let seen := kw_lower :: seen in
            if negb (existsb py_isalpha kw) then clean_loop rest seen
            else kw :: clean_loop rest seen
    end.

Definition _clean_keywords (keywords : list str) (language : str)
    : list str :=
    clean_loop keywords [].

Definition _extract_with_yake (self : KeywordExtractor) (text : str)
      (count : Z) (language : str) (ngram_size : option Z)
    : M X (list str) :=
    (let max_ngram_size :=
       match ngram_size with
       | Some k => k
       | None => max_ngram_size self
       end in
     let yake_language := _map_language_to_yake language in
     keywords_with_scores <-
       yake_extract_keywords
         (mkYakeArgs yake_language max_ngram_size
                     (deduplication_threshold self)
                     DEFAULT_DEDUPLICATION_ALGO (window_size self)
                     (count * 2))
         text ;;
     let keywords := List.map fst keywords_with_scores in
     let keywords := _clean_keywords keywords language in
     ret (slice_to count keywords))%py.

Definition extract (self : KeywordExtractor) (text : str)
      (count : option Z) (language : option str) : M X KeywordsResult :=
    let count := match count with Some c => c | None => MAX_KEYWORDS end in
    let count := Z.max MIN_KEYWORDS (Z.min count MAX_KEYWORDS) in
    if negb (truthy text) || (len (strip text) <? 10) then
      ret (KeywordsResult_new [] [] 0 false (method self)
             (Some (lit "Text is too short for keyword extraction"))
             (Some EMPTY_DOCUMENT))
    else
      let language :=
        match language with
        | Some l => l
        | None => LanguageDetector_detect text
        end in
      try_except
        (keywords <- _extract_with_yake self text count language None ;;
         keywords <-
           (if Z.of_nat (List.length keywords) <? MIN_KEYWORDS
            then _extract_with_yake self text count language (Some 3)
            else ret keywords) ;;
         let keywords := slice_to MAX_KEYWORDS keywords in
         let formatted := format_keywords keywords in
         ret (KeywordsResult_new keywords formatted
                (Z.of_nat (List.length keywords)) true (method self)
                None None))%py
        [Exception]
        (fun e =>
           ret (KeywordsResult_new [] [] 0 false (method self)
                  (Some (exn_str e)) (Some API_ERROR))).

End KeywordExtractor.
Arguments KeywordExtractor F : clear implicits.

End Keywords.

(* ================================================================== *)
(** * parsers/base.py, parsers/txt_parser.py, parsers/md_parser.py,
      parsers/factory.py *)
(* ================================================================== *)

Module Parsers.
Import Enums Models.

Definition dot : char := 46%N.
Definition slash : char := 47%N.

Fixpoint lstrip_dots (s : str) : str :=
    match s with
    | c :: s' => if char_eqb c dot then lstrip_dots s' else s
    | [] => []
    end.

Fixpoint take_until (c : char) (s : str) : str :=
    match s with
    | [] => []
    | d :: s' => if char_eqb d c then [] else d :: take_until c s'
    end.

Fixpoint drop_until (c : char) (s : str) : str :=
    match s with
    | [] => []
    | d :: s' => if char_eqb d c then s else drop_until c s'
    end.

  (** [os.path.splitext(p)[1]] (POSIX): the extension starts at the last
      dot of the last path component, unless only dots come before it. *)
Definition splitext_ext (p : str) : str :=
    let base_rev := take_until slash (rev p) in
    match drop_until dot base_rev with
    | [] => []
    | _ :: stem_rev =>
        if forallb (fun c => char_eqb c dot) stem_rev then []
        else dot :: rev (take_until dot base_rev)
    end.

Section Parsers.
Context {F : Type} {U : UnicodeOps}.
Context {X : Type}.
  (** [open(path, "r", encoding=enc).read()] *)
Variable open_read : str -> str -> M X str.
  (** What [_detect_encoding] asks of chardet: read the bytes of the
      file and return [chardet.detect(raw).get("encoding")]. *)
Variable chardet_detect_file : str -> M X (option str).
  (** [PDFParser.parse] and [DOCXParser.parse], which wrap pdfplumber and
      python-docx. *)
Variable pdf_parse : str -> M X (ParseResult F).
Variable docx_parse : str -> M X (ParseResult F).

  (** [DocumentParser._normalize_extension] *)
Definition _normalize_extension (extension : str) : str :=
    lstrip_dots (py_lower extension).

Definition FALLBACK_ENCODINGS : list str :=
    [lit "utf-8"; lit "cp1251"; lit "latin-1"; lit "cp1252"].

Definition empty_document : ParseResult F :=
    ParseResult_new [] 0 false PLAIN_READ (Some (lit "Document is empty"))
                    (Some EMPTY_DOCUMENT) false None.

  (** What both text parsers return once a read has decoded [text]. *)
Definition result_of_text (text : str) : ParseResult F :=
    let char_count := len text in
    if char_count =? 0 then empty_document
    else ParseResult_new text char_count true PLAIN_READ None None false None.

Definition str_of_last_error (last_error : option PyExn) : str :=
    match last_error with
    | Some e => exn_str e
    | None => lit "None"
    end.

Definition corrupted (message : str) : ParseResult F :=
    ParseResult_new [] 0 false PLAIN_READ (Some message)
                    (Some CORRUPTED_FILE) false None.

  (** The loop over the encodings still to try, shared by both parsers;
      [what] is the name of the format in the error message. *)
Fixpoint try_encodings (what : str) (file_path : str) (encodings : list str)
                         (last_error : option PyExn) : M X (ParseResult F) :=
    match encodings with
    | [] =>
        ret (corrupted (lit "Failed to decode file with any encoding: "
                        ++ str_of_last_error last_error))
    | enc :: rest =>
        fun x =>
          match open_read file_path enc x with
          | (Return text, x1) => (Return (result_of_text text), x1)
          | (Raise e, x1) =>
              if exn_matches e [UnicodeDecodeError; LookupError]
              then try_encodings what file_path rest (Some e) x1
              else if exn_matches e [Exception]
              then (Return (corrupted (lit "Failed to read " ++ what
                                       ++ lit " file: " ++ exn_str e)), x1)
              else (Raise e, x1)
          end
    end.

  (** [TXTParser._detect_encoding] *)
Definition _detect_encoding (file_path : str) : M X (option str) :=
    try_except
      (encoding <- chardet_detect_file file_path ;;
       ret (match encoding with
            | Some e => if truthy e then Some e else None
            | None => None
            end))%py
      [ImportError; Exception]
      (fun _ => ret None).

Definition opt_str_eqb (a : str) (b : option str) : bool :=
    match b with Some s => PyStr.eqb a s | None => false end.

  (** [TXTParser.parse] *)
Definition TXTParser_parse (file_path : str) : M X (ParseResult F) :=
    fun x =>
      match open_read file_path (lit "utf-8") x with
      | (Return text, x1) => (Return (result_of_text text), x1)
      | (Raise e, x1) =>
          if exn_matches e [UnicodeDecodeError] then
            (encoding <- _detect_encoding file_path ;;
             let encodings_to_try :=
               match encoding with
               | Some enc =>
                   if truthy enc
                      && negb (PyStr.eqb (py_lower enc) (lit "utf-8"))
                   then [enc] else []
               | None => []
               end in
             let encodings_to_try :=
               encodings_to_try
               ++ filter (fun e => negb (opt_str_eqb e encoding)
                                   && negb (PyStr.eqb e (lit "utf-8")))
                         FALLBACK_ENCODINGS in
             try_encodings (lit "TXT") file_path encodings_to_try None)%py x1
          else (Raise e, x1)
      end.

  (** [MDParser.parse] *)
Definition MDParser_parse (file_path : str) : M X (ParseResult F) :=
    try_encodings (lit "MD") file_path FALLBACK_ENCODINGS None.

Inductive DocumentParser := PDFParser | DOCXParser | TXTParser | MDParser.

Definition supports (p : DocumentParser) (file_extension : str) : bool :=
    PyStr.eqb (_normalize_extension file_extension)
      match p with
      | PDFParser => lit "pdf" | DOCXParser => lit "docx"
      | TXTParser => lit "txt" | MDParser => lit "md"
      end.

Definition parse (p : DocumentParser) (file_path : str)
    : M X (ParseResult F) :=
    match p with
    | PDFParser => pdf_parse file_path
    | DOCXParser => docx_parse file_path
    | TXTParser => TXTParser_parse file_path
    | MDParser => MDParser_parse file_path
    end.

  (** [ParserFactory] *)
Definition _parsers : list DocumentParser :=
    [PDFParser; DOCXParser; TXTParser; MDParser].

Definition _get_extension (file_path : str) : str :=
    lstrip_dots (py_lower (splitext_ext file_path)).

Definition get_parser (file_path : str) : option DocumentParser :=
    let extension := _get_extension file_path in
    find (fun parser => supports parser extension) _parsers.

Definition get_parser_by_type (file_type : FileType)
    : option DocumentParser :=
    get_parser (lit "file." ++ FileType_value file_type).

End Parsers.

End Parsers.

(* ================================================================== *)
(** * processor.py *)
(* ================================================================== *)

Module Processor.
Import Enums Models Config Retry Summarizer Keywords Parsers.

  (** A call of a method of [ProcessingLogger] with its arguments. *)
Inductive LogCall :=
  | log_upload (metadata : Metadata)
  | log_extraction (status : str) (char_count : Z)
                   (extraction_method : option str) (used_ocr : bool)
                   (file_name : option str)
  | log_api_call (service status : str) (model : option str)
                 (tokens_used : option Z)
  | log_keywords (extraction_method : str) (keyword_count : Z) (status : str)
                 (language : option str)
  | log_error (error_type message : str)
              (error_scenario : option ErrorScenario)
              (context : list (str * str)).

  (** The fields of [WorkflowConfig] the orchestrator reads. *)
Record WorkflowConfig (F : Type) := mkWorkflowConfig {
    ai_provider : str;
    openai_api_key : option str;
    openai_model : str;
    keywords_max_count : Z;
    wc_max_retries : Z;
    retry_base_delay : F;
    retry_max_delay : F;
    max_file_size_mb : Z;
    log_file_path : str
  }.

  (** The collaborators of the pipeline outside the repository, as
      operations on the world [X]. *)
Record Externals (X F Client : Type) := mkExternals {
    time_time : X -> F * X;
    time_sleep : F -> M X unit;
    random_random : X -> F * X;
    OpenAI_new : str -> option str -> M X Client;
    chat_completions_create : Client -> Request F -> M X Response;
    yake_extract_keywords : YakeArgs F -> str -> M X (list (str * F));
    open_read : str -> str -> M X str;
    chardet_detect_file : str -> M X (option str);
    pdf_parse : str -> M X (ParseResult F);
    docx_parse : str -> M X (ParseResult F);
    logger : LogCall -> M X unit
  }.

  (** [NotificationTemplates.PROCESSING_STARTED] *)
Definition PROCESSING_STARTED : str := lit "⏳ Обработка документа...".

Section DocumentProcessor.
Context {F : Type} `{FloatOps F} {U : UnicodeOps}.
Context {X Client : Type}.
Variable ext : Externals X F Client.
  (** [LanguageDetector.detect], see [Keywords]. *)
Variable LanguageDetector_detect : str -> str.

Record DocumentProcessor := mkDocumentProcessor {
    config : WorkflowConfig F;
    retry_handler : RetryHandler F;
    summarizer : OpenAISummarizer F Client;
    keyword_extractor : KeywordExtractor F
  }.

Definition Self := DocumentProcessor.

Definition _create_summarizer (config : WorkflowConfig F)
    : OpenAISummarizer F Client :=
    if PyStr.eqb (ai_provider config) (lit "openrouter") then
      mkOpenAISummarizer (or_else (openai_api_key config) [])
        (openai_model config) 1000 (f_lit (3 # 10))
        (Some (lit "https://openrouter.ai/api/v1")) None
    else if PyStr.eqb (ai_provider config) (lit "openai") then
      mkOpenAISummarizer (or_else (openai_api_key config) [])
        (openai_model config) 1000 (f_lit (3 # 10)) None None
    else
      mkOpenAISummarizer (or_else (openai_api_key config) [])
        (openai_model config) 1000 (f_lit (3 # 10)) None None.

  (** [DocumentProcessor(config)] *)
Definition DocumentProcessor_new (config : WorkflowConfig F) : Self :=
    let retry_config :=
      mkRetryConfig (wc_max_retries config) (retry_base_delay config)
                    (retry_max_delay config) (f_lit 2) true in
    mkDocumentProcessor config
                        (Retry.new (Some retry_config))
                        (_create_summarizer config)
                        default_KeywordExtractor.

Definition log (c : LogCall) : M (Self * X) unit :=
    lift_world (logger ext c).

Definition now : M (Self * X) F := lift_world (total (time_time ext)).

Definition _parse_document (file_path : str) (file_type : FileType)
    : M (Self * X) (ParseResult F) :=
    match get_parser_by_type file_type with
    | None =>
        ret (ParseResult_new [] 0 false PLAIN_READ
               (Some (lit "No parser available for file type: "
                      ++ FileType_value file_type))
               (Some UNSUPPORTED_FORMAT) false None)
    | Some parser =>
        try_except
          (lift_world
             (parse (open_read ext) (chardet_detect_file ext)
                    (pdf_parse ext) (docx_parse ext) parser file_path))
          [Exception]
          (fun e =>
             log (log_error (lit "ParseError") (exn_str e)
                    (Some CORRUPTED_FILE)
                    [(lit "file_path", file_path);
                     (lit "file_type", FileType_value file_type)]) ;;;
             ret (ParseResult_new [] 0 false PLAIN_READ (Some (exn_str e))
                    (Some CORRUPTED_FILE) false None))%py
    end.

  (** [random.random] and [time.sleep] seen from the world in which the
      summarizer of the orchestrator lives. *)
Definition random_in {S} (st : S * X) : F * (S * X) :=
    let (r, x') := random_random ext (snd st) in (r, (fst st, x')).

Definition _summarize_with_retry (text language : str)
    : M (Self * X) SummaryResult :=
    fun st =>
      let self := fst st in
      let summarize_func :=
        summarize (OpenAI_new ext) (chat_completions_create ext)
                  text language in
      match execute_with_retry random_in
              (fun d => lift_world (time_sleep ext d))
              summarize_func [Exception]
              (retry_handler self) (summarizer self, snd st) with
      | (r, handler', (summarizer', x')) =>
          let self' :=
            mkDocumentProcessor (config self) handler' summarizer'
                                (keyword_extractor self) in
          match r with
          | Return v => (Return v, (self', x'))
          | Raise e =>
              if exn_matches e [Exception] then
                (log (log_error (lit "SummarizationError") (exn_str e)
                        (Some API_ERROR) []) ;;;
                 log (log_api_call (ai_provider (config self')) (lit "error")
                        None None) ;;;
                 ret (mkSummaryResult [] 0 language false OPENAI_GPT4 None
                        (Some (exn_str e)) (Some API_ERROR)))%py (self', x')
              else (Raise e, (self', x'))
          end
      end.

Definition _extract_keywords (text language : str)
    : M (Self * X) KeywordsResult :=
    (self <- get_self ;;
     try_except
       (lift_world
          (extract (yake_extract_keywords ext) LanguageDetector_detect
                   (keyword_extractor self) text
                   (Some (keywords_max_count (config self)))
                   (Some language)))
       [Exception]
       (fun e =>
          log (log_error (lit "KeywordExtractionError") (exn_str e)
                 (Some API_ERROR) []) ;;;
          ret (KeywordsResult_new [] [] 0 false (lit "yake")
                 (Some (exn_str e)) (Some API_ERROR))))%py.

Definition _create_failed_result (metadata : Metadata)
      (parse_result : option (ParseResult F))
      (summary_result : option SummaryResult)
      (keywords_result : option KeywordsResult)
      (processing_time : F) (error_scenario : option ErrorScenario)
    : ProcessingResult F :=
    let parse_result :=
      match parse_result with
      | Some r => r
      | None => ParseResult_new [] 0 false PLAIN_READ None error_scenario
                                false None
      end in
    let summary_result :=
      match summary_result with
      | Some r => r
      | None =>
          mkSummaryResult [] 0 (or_else (language metadata) (lit "en")) false
                          OPENAI_GPT4 None None error_scenario
      end in
    let keywords_result :=
      match keywords_result with
      | Some r => r
      | None =>
          KeywordsResult_new [] [] 0 false (lit "yake") None error_scenario
      end in
    mkProcessingResult metadata parse_result summary_result keywords_result
                       FAILED processing_time error_scenario.

Definition process_document (file_path : str) (metadata : Metadata)
      (on_progress : option (str -> M X unit))
    : M (Self * X) (ProcessingResult F) :=
    (start_time <- now ;;
     log (log_upload metadata) ;;;
     match on_progress with
     | Some callback => lift_world (callback PROCESSING_STARTED)
     | None => ret tt
     end ;;;
     parse_result <- _parse_document file_path (file_type metadata) ;;
     if negb (pr_success parse_result) then
       t <- now ;;
       ret (_create_failed_result metadata (Some parse_result) None None
              (f_sub t start_time) (pr_error_scenario parse_result))
     else
       log (log_extraction (lit "success") (char_count parse_result)
              (Some (ExtractionMethod_value
                       (pr_extraction_method parse_result)))
              (used_ocr parse_result) (Some (file_name metadata))) ;;;
       let language := LanguageDetector_detect (text parse_result) in
       let metadata := set_language metadata language in
       summary_result <- _summarize_with_retry (text parse_result) language ;;
       if negb (sr_success summary_result) then
         t <- now ;;
         ret (_create_failed_result metadata (Some parse_result)
                (Some summary_result) None (f_sub t start_time)
                (sr_error_scenario summary_result))
       else
         self <- get_self ;;
         log (log_api_call (ai_provider (config self)) (lit "success")
                (Some (AIModel_value (ai_model_used summary_result)))
                (tokens_used summary_result)) ;;;
         keywords_result <- _extract_keywords (text parse_result) language ;;
         if negb (kr_success keywords_result) then
           t <- now ;;
           ret (_create_failed_result metadata (Some parse_result)
                  (Some summary_result) (Some keywords_result)
                  (f_sub t start_time) (kr_error_scenario keywords_result))
         else
           log (log_keywords (kr_extraction_method keywords_result)
                  (count keywords_result) (lit "success")
                  (Some language)) ;;;
           t <- now ;;
           let processing_time := f_sub t start_time in
           ret (mkProcessingResult metadata parse_result summary_result
                  keywords_result COMPLETED processing_time None))%py.

Definition create_sheets_row (result : ProcessingResult F)
    : GoogleSheetsRow F :=
    mkGoogleSheetsRow
      (isoformat (timestamp (metadata result)))
      (of_int (uploader_id (metadata result)))
      (or_else (uploader_username (metadata result)) [])
      (file_name (metadata result))
      (FileType_value (file_type (metadata result)))
      (file_size (metadata result))
      (char_count (parse_result result))
      (or_else (language (metadata result)) [])
      (summary (summary_result result))
      (formatted (keywords_result result))
      (ProcessingStatus_value (status result))
      (or_else (sr_error_message (summary_result result)) [])
      (AIModel_value (ai_model_used (summary_result result)))
      (ExtractionMethod_value (pr_extraction_method (parse_result result)))
      (used_ocr (parse_result result))
      (processing_time (result)).

End DocumentProcessor.
Arguments DocumentProcessor : clear implicits.

End Processor.

(* ================================================================== *)
(** * Instrumented collaborators

    The properties below count calls and read the pauses of a run. The
    embedding of the source keeps no such record; the operation handed to
    the wrapper and the collaborators are instrumented instead, the way
    the tests of the repository count calls with [nonlocal call_count]. *)
(* ================================================================== *)

Module Harness.
Import Config Retry.

Section Scenario.
Context {F : Type} `{FloatOps F}.
Context {S E T : Type}.
  (** The operation under retry acts on [S]; the random generator and
      [time.sleep] act on [E]. *)
Variable op : M S T.
Variable random_random : E -> F * E.
Variable time_sleep : F -> M E unit.

  (** The state in which call number [k] (from 0) of [op] starts when
      [op] is called again and again from [s], and the outcome of that
      call. *)
Fixpoint state_before (k : nat) (s : S) : S :=
    match k with
    | O => s
    | Datatypes.S k' => snd (op (state_before k' s))
    end.

Definition outcome (k : nat) (s : S) : Result T :=
    fst (op (state_before k s)).

  (** The world of a run: the state of the operation, the number of calls
      made to it, the environment and the pauses slept so far. *)
Record World := mkWorld {
    op_state : S;
    calls : nat;
    env : E;
    sleeps : list F
  }.

Definition counted : M World T :=
    fun w =>
      let (r, s') := op (op_state w) in
      (r, mkWorld s' (calls w + 1) (env w) (sleeps w)).

Definition random_w (w : World) : F * World :=
    let (r, e') := random_random (env w) in
    (r, mkWorld (op_state w) (calls w) e' (sleeps w)).

Definition recorded_sleep (d : F) : M World unit :=
    fun w =>
      let (r, e') := time_sleep d (env w) in
      (r, mkWorld (op_state w) (calls w) e' (sleeps w ++ [d])).

  (** The pauses after the failed attempts [a], [a + 1], ...,
      [a + m - 1]: the delays slept and the environment afterwards, or
      [None] when computing a delay or sleeping raises. *)
Fixpoint run_pauses (cfg : RetryConfig F) (a m : nat) (e : E)
    : option (list F * E) :=
    match m with
    | O => Some ([], e)
    | Datatypes.S m' =>
        match get_delay random_random cfg (Z.of_nat a) e with
        | (Return d, e1) =>
            match time_sleep d e1 with
            | (Return _, e2) =>
                match run_pauses cfg (Datatypes.S a) m' e2 with
                | Some (ds, e') => Some (d :: ds, e')
                | None => None
                end
            | (Raise _, _) => None
            end
        | (Raise _, _) => None
        end
    end.

  (** [min(base_delay * exponential_base ** attempt, max_delay)], which
      raises when the power does. *)
Definition backoff_formula (cfg : RetryConfig F) (attempt : Z) : Result F :=
    match f_pow (exponential_base cfg) attempt with
    | Return p => Return (py_min (f_mul (base_delay cfg) p) (max_delay cfg))
    | Raise e => Raise e
    end.

End Scenario.
Arguments World : clear implicits.

Section Recorded.
Import Enums Models Summarizer.
Context {F X Client : Type}.
Variable OpenAI_new : str -> option str -> M X Client.
Variable chat_completions_create : Client -> Request F -> M X Response.

  (** The generation service in a world that also holds the list of the
      requests sent to it so far. *)
Definition recorded_new (api_key : str) (base_url : option str)
    : M (X * list (Request F)) Client :=
    fun w =>
      let (r, x') := OpenAI_new api_key base_url (fst w) in (r, (x', snd w)).

Definition recorded_create (c : Client) (request : Request F)
    : M (X * list (Request F)) Response :=
    fun w =>
      let (r, x') := chat_completions_create c request (fst w) in
      (r, (x', snd w ++ [request])).

  (** The request [_call_api_with_tokens] sends for a prompt. *)
Definition request_of (self : OpenAISummarizer F Client) (prompt : str)
    : Request F :=
    mkRequest (model self) SYSTEM_MESSAGE prompt (max_tokens self)
              (temperature self).

  (** What [_call_api_with_tokens] makes of the outcome of the call: the
      stripped content of the first choice and the tokens used. *)
Definition reply_of (r : Result Response) : Result (str * Z) :=
    match r with
    | Raise e => Raise e
    | Return response =>
        match choices response with
        | [] => Raise (mkExn IndexError (lit "list index out of range"))
        | None :: _ =>
            Raise (mkExn AttributeError
                         (lit "'NoneType' object has no attribute 'strip'"))
        | Some content :: _ =>
            Return (strip content,
                    match usage response with Some t => t | None => 0 end)
        end
    end.

Context {U : UnicodeOps}.

  (** The two results [summarize] builds. *)
Definition success_result (self : OpenAISummarizer F Client)
      (summary language : str) (tokens : Z) : SummaryResult :=
    mkSummaryResult summary (_count_sentences summary) language true
                    (_get_ai_model self) (Some tokens) None None.

Definition failure_result (self : OpenAISummarizer F Client)
      (language : str) (e : PyExn) : SummaryResult :=
    mkSummaryResult [] 0 language false (_get_ai_model self) None
                    (Some (exn_str e)) (Some (_classify_error e)).

  (** The [except Exception] clause of [summarize]. *)
Definition on_error (language : str) (e : PyExn)
      (st : OpenAISummarizer F Client * X)
    : Result SummaryResult * (OpenAISummarizer F Client * X) :=
    if exn_matches e [Exception]
    then (Return (failure_result (fst st) language e), st)
    else (Raise e, st).

Definition out_of_bounds (sentence_count : Z) : bool :=
    (sentence_count <? MIN_SENTENCES) || (sentence_count >? MAX_SENTENCES).

  (** A prompt that asks for exactly [k] sentences, in the words of the
      corrective prompt of the source. *)
Definition exact_count_prompt (k : Z) (text language : str) : str :=
    (lit "Создай резюме ровно из " ++ of_int k ++ lit " предложений")
    ++ lit " " ++ lang_instruction language ++ lit "." ++ newline
    ++ lit "Резюме должно точно отражать основные темы и ключевые моменты документа."
    ++ newline ++ newline
    ++ lit "Текст:" ++ newline
    ++ text ++ newline ++ newline
    ++ lit "Резюме:".

  (** The bound of [3, 7] nearer to a count outside it. *)
Definition nearer_bound (sentence_count : Z) : Z :=
    if sentence_count <? 3 then 3 else 7.

End Recorded.

Section Stage.
Import Processor.
Context {F Client : Type}.

  (** The processor after a run of the summarization stage: the handler
      records one attempt and the summarizer keeps its client handle. *)
Definition after_summarize (self : DocumentProcessor F Client)
      (summarizer' : Summarizer.OpenAISummarizer F Client)
    : DocumentProcessor F Client :=
    mkDocumentProcessor (Processor.config self)
                        (Retry.set_attempt_count (retry_handler self) 1)
                        summarizer' (keyword_extractor self).
End Stage.

End Harness.

(* ================================================================== *)
(** * Test doubles

    Concrete collaborators for the examples: exact rational arithmetic in
    place of [float], the ASCII part of the Unicode functions, and a
    scripted world that counts the calls made to the generation service,
    in the manner of the mocks of tests/property. *)
(* ================================================================== *)

Module Doubles.
Import Enums Models Config Retry Summarizer Keywords Parsers Processor.

#[export] Instance Q_FloatOps : FloatOps Q := {|
    f_lit := fun q => q;
    f_add := Qplus;
    f_sub := Qminus;
    f_mul := Qmult;
    f_ltb := fun a b => negb (Qle_bool b a);
    f_pow := fun x k =>
      if Qeq_bool x 0 && (k <? 0)
      then Raise (mkExn ZeroDivisionError
                        (lit "0.0 cannot be raised to a negative power"))
      else Return (Qpower x k)
  |}.

Definition ascii_lower (c : char) : char :=
    if ((65 <=? c) && (c <=? 90))%N then (c + 32)%N else c.

Definition ascii_isalpha (c : char) : bool :=
    ((65 <=? c) && (c <=? 90) || (97 <=? c) && (c <=? 122))%N.

  (** [str.lower] and [str.isalpha] on ASCII text. *)
Definition ascii_UnicodeOps : UnicodeOps := {|
    py_lower := List.map ascii_lower;
    py_isalpha := ascii_isalpha
  |}.

  (** The operation of [test_retry_logic_for_api_failures]; its state is
      [call_count]. *)
Definition failing_then_succeeding (num_failures : nat) : M nat str :=
    fun call_count =>
      let call_count := (call_count + 1)%nat in
      if (call_count <=? num_failures)%nat
      then (Raise (mkExn Exception (lit "API Error")), call_count)
      else (Return (lit "success"), call_count).

  (** The error of every failed call of that operation. *)
Definition api_error (k : nat) : PyExn := mkExn Exception (lit "API Error").

  (** A handler with three retries and no jitter. *)
Definition example_handler : RetryHandler Q :=
    Retry.new (Some (mkRetryConfig 3 1%Q 30%Q 2%Q false)).

  (** An environment in which [random.random()] is always 0 and
      [time.sleep] returns at once. *)
Definition still_random (e : unit) : Q * unit := (0%Q, e).
Definition no_sleep (d : Q) : M unit unit := ret tt.

  (** The scripted world. *)
Record TestWorld := mkTestWorld {
    generation_calls : nat;
    scorer_calls : nat;
    clock : Z;
    audit : list LogCall;
    pauses : list Q
  }.

Definition fresh_world : TestWorld := mkTestWorld 0 0 0 [] [].

Section Scripted.
    (** The reply of the generation service to its [k]-th call (from 0),
        the text of each file when read as UTF-8, and the candidate
        phrases of the scorer. *)
Variable replies : nat -> Result Response.
Variable files : str -> Result str.
Variable phrases : YakeArgs Q -> str -> Result (list (str * Q)).

Definition scripted_create (c : unit) (request : Request Q)
      : M TestWorld Response :=
      fun w =>
        (replies (generation_calls w),
         mkTestWorld (Datatypes.S (generation_calls w)) (scorer_calls w)
                     (clock w) (audit w) (pauses w)).

Definition scripted_yake (args : YakeArgs Q) (text : str)
      : M TestWorld (list (str * Q)) :=
      fun w =>
        (phrases args text,
         mkTestWorld (generation_calls w) (Datatypes.S (scorer_calls w))
                     (clock w) (audit w) (pauses w)).

Definition scripted_read (path encoding : str) : M TestWorld str :=
      fun w =>
        (if PyStr.eqb encoding (lit "utf-8") then files path
         else Raise (mkExn LookupError (lit "unknown encoding")), w).

Definition test_externals : Externals TestWorld Q unit := {|
      time_time := fun w =>
        (inject_Z (clock w),
         mkTestWorld (generation_calls w) (scorer_calls w) (clock w + 1)
                     (audit w) (pauses w));
      time_sleep := fun d w =>
        (Return tt,
         mkTestWorld (generation_calls w) (scorer_calls w) (clock w)
                     (audit w) (pauses w ++ [d]));
      random_random := fun w => (0%Q, w);
      OpenAI_new := fun _ _ => ret tt;
      chat_completions_create := scripted_create;
      yake_extract_keywords := scripted_yake;
      open_read := scripted_read;
      chardet_detect_file := fun _ => ret None;
      pdf_parse := fun _ =>
        raise (mkExn ImportError (lit "No module named 'pdfplumber'"));
      docx_parse := fun _ =>
        raise (mkExn ImportError (lit "No module named 'docx'"));
      logger := fun c w =>
        (Return tt,
         mkTestWorld (generation_calls w) (scorer_calls w) (clock w)
                     (audit w ++ [c]) (pauses w))
    |}.
End Scripted.

  (** A detector that answers "en", for the examples in English. *)
Definition detect_en (text : str) : str := lit "en".

Definition test_config : WorkflowConfig Q :=
    mkWorkflowConfig (lit "openai") (Some (lit "test-key")) (lit "gpt-4")
                     10 3 1%Q 30%Q 20 (lit "logs/processing.log").

Definition test_metadata : Metadata :=
    mkMetadata (lit "notes.txt") 5 TXT 42
               (mkDatetime 2024 1 15 10 30 0 0) (Some (lit "alice"))
               None None None.

  (** A text of more than 100 characters. *)
Definition long_text : str :=
    lit "The quarterly report describes the main results of the project. It lists the open risks and proposes the next steps.".

  (** The service of the retry scenario of the specification: it raises
      "rate limit exceeded" on its first two calls and answers the
      third. *)
Definition rate_limited_twice (k : nat) : Result Response :=
    if (k <? 2)%nat
    then Raise (mkExn (OtherError (lit "RateLimitError"))
                      (lit "rate limit exceeded"))
    else Return (mkResponse
                   [Some (lit "First point. Second point. Third point.")]
                   (Some 42)).

  (** A service that answers every call with one sentence. *)
Definition one_sentence (k : nat) : Result Response :=
    Return (mkResponse [Some (lit "Only one sentence.")] (Some 10)).

Definition no_files (path : str) : Result str :=
    Raise (mkExn OSError (lit "No such file or directory")).

Definition no_phrases (args : YakeArgs Q) (text : str)
    : Result (list (str * Q)) := Return [].

  (** The summarizer the orchestrator builds for [test_config]. *)
Definition test_summarizer : OpenAISummarizer Q unit :=
    _create_summarizer test_config.

Definition one_sentence_externals : Externals TestWorld Q unit :=
    test_externals one_sentence no_files no_phrases.

  (** A file system with one file, "notes.txt", of five characters. *)
Definition five_characters (path : str) : Result str :=
    if PyStr.eqb path (lit "notes.txt") then Return (lit "hello")
    else no_files path.

  (** A file system whose file "empty.txt" has no content. *)
Definition empty_file (path : str) : Result str :=
    if PyStr.eqb path (lit "empty.txt") then Return []
    else no_files path.

  (** The candidate phrases of a text of two words. *)
Definition hello_world_phrases (args : YakeArgs Q) (text : str)
    : Result (list (str * Q)) :=
    Return [(lit "hello world", 49 # 1000); (lit "hello", 158 # 1000);
            (lit "world", 158 # 1000)].

Definition rate_limited_externals : Externals TestWorld Q unit :=
    test_externals rate_limited_twice no_files no_phrases.

Definition empty_file_externals : Externals TestWorld Q unit :=
    test_externals one_sentence empty_file no_phrases.

Definition five_characters_externals : Externals TestWorld Q unit :=
    test_externals one_sentence five_characters hello_world_phrases.

  (** The orchestrator built from [test_config]: [max_retries] is 3. *)
Definition test_processor : DocumentProcessor Q unit :=
    DocumentProcessor_new test_config.

End Doubles.

(* ================================================================== *)
(** * Properties of the retry wrapper *)
(* ================================================================== *)

Module RetryProps.
Import Config Retry Harness Doubles.

Section RetryFacts.
Context {F : Type} `{FloatOps F}.
Context {S E T : Type}.
Variable op : M S T.
Variable random_random : E -> F * E.
Variable time_sleep : F -> M E unit.
Variable errors : list ExnClass.

Local Abbreviation loop :=
    (retry_loop (random_w random_random) (recorded_sleep time_sleep)
                (counted op) errors).

  (** [get_delay] in the instrumented world only touches the
      environment. *)
Lemma get_delay_random_w :
    forall cfg a (w : World F S E),
      get_delay (random_w random_random) cfg a w =
      (fst (get_delay random_random cfg a (env w)),
       mkWorld (op_state w) (calls w)
               (snd (get_delay random_random cfg a (env w))) (sleeps w)).
Proof.
    intros cfg a [s c e sl]. unfold get_delay, bind, total, ret, random_w. cbn.
    destruct (f_pow (exponential_base cfg) a); cbn; [|reflexivity].
    destruct (jitter cfg); cbn; [|reflexivity].
    destruct (random_random e); reflexivity.
Qed.

Lemma last_cons_default :
    forall (A : Type) (l : list A) (d x : A), List.last (d :: l) x = List.last l d.
Proof.
    intros A l. induction l as [|y l IH]; intros d x; [reflexivity|].
    change (List.last (d :: y :: l) x) with (List.last (y :: l) x).
    rewrite IH. symmetry. apply IH.
Qed.

Lemma seq_cons : forall a len, seq a (Datatypes.S len) = a :: seq (Datatypes.S a) len.
Proof. reflexivity. Qed.

  (** [m] failed attempts, each followed by its pause, then a call that
      returns: the loop returns that value after [m + 1] calls. *)
Lemma retry_loop_success :
    forall (cfg : RetryConfig F) (errs : nat -> PyExn) (v : T) (s : S) (m : nat) (a len : nat) last h c e sl ds e',
      config h = cfg ->
      (forall k, (a <= k < a + m)%nat ->
                 outcome op k s = Raise (errs k)
                 /\ exn_matches (errs k) errors = true) ->
      outcome op (a + m) s = Return v ->
      Z.of_nat (a + m) <= max_retries cfg ->
      (m < len)%nat ->
      run_pauses random_random time_sleep cfg a m e = Some (ds, e') ->
      loop (List.map Z.of_nat (seq a len)) last h
           (mkWorld (state_before op a s) c e sl)
      = (Return v,
         mkRetryHandler cfg (Z.of_nat (a + m) + 1) (List.last ds (_last_delay h)),
         mkWorld (state_before op (a + m + 1) s) (c + m + 1) e' (sl ++ ds)).
Proof.
    intros cfg errs v s m. induction m as [|m IH];
      intros a len last h c e sl ds e' Hcfg Hfail Hok Hle Hlen Hp.
    - destruct len as [|len]; [lia|]. rewrite seq_cons. cbn [List.map retry_loop].
      cbn in Hp. injection Hp as <- <-.
      unfold counted at 1. cbn [op_state calls env sleeps].
      unfold outcome in Hok. rewrite Nat.add_0_r in Hok.
      destruct (op (state_before op a s)) as [r s'] eqn:Eop. cbn in Hok. subst r.
      rewrite !Nat.add_0_r, app_nil_r. cbn [List.last].
      replace (state_before op (a + 1) s) with s'.
      2:{ rewrite Nat.add_1_r. cbn. rewrite Eop. reflexivity. }
      unfold set_attempt_count. rewrite Hcfg. repeat f_equal; lia.
    - destruct len as [|len]; [lia|]. rewrite seq_cons. cbn [List.map retry_loop].
      unfold counted at 1. cbn [op_state calls env sleeps].
      destruct (Hfail a ltac:(lia)) as [Hout Hmatch].
      unfold outcome in Hout.
      destruct (op (state_before op a s)) as [r s'] eqn:Eop. cbn in Hout. subst r.
      rewrite Hmatch.
      cbn [config set_attempt_count]. rewrite Hcfg.
      replace (Z.of_nat a <? max_retries cfg) with true by (symmetry; apply Z.ltb_lt; lia).
      rewrite get_delay_random_w. cbn [env op_state calls sleeps].
      cbn [run_pauses] in Hp.
      destruct (get_delay random_random cfg (Z.of_nat a) e) as [[d|ex] e1] eqn:Eg; [|discriminate].
      cbn [fst snd].
      unfold recorded_sleep at 1. cbn [env op_state calls sleeps].
      destruct (time_sleep d e1) as [[u|ex] e2] eqn:Es; [|discriminate].
      destruct (run_pauses random_random time_sleep cfg (Datatypes.S a) m e2) as [[ds' e'']|] eqn:Er; [|discriminate].
      inversion Hp; subst ds e'; clear Hp.
      replace s' with (state_before op (Datatypes.S a) s) by (cbn; rewrite Eop; reflexivity).
      rewrite (IH (Datatypes.S a) len (Some (errs a)) _ (c + 1)%nat e2 (sl ++ [d]) ds' e'').
      + cbn [_last_delay set_last_delay].
        replace (Datatypes.S a + m)%nat with (a + Datatypes.S m)%nat by lia.
        replace (c + 1 + m + 1)%nat with (c + Datatypes.S m + 1)%nat by lia.
        rewrite <- app_assoc. cbn [app].
        rewrite (last_cons_default ds' d (_last_delay h)). reflexivity.
      + cbn. exact Hcfg.
      + intros k Hk. apply Hfail. lia.
      + replace (Datatypes.S a + m)%nat with (a + Datatypes.S m)%nat by lia. exact Hok.
      + lia.
      + lia.
      + exact Er.
Qed.

  (** Every attempt up to the last one fails: the loop raises the error
      of the last call and makes no pause after it. *)
Lemma retry_loop_exhausted :
    forall (cfg : RetryConfig F) (errs : nat -> PyExn) (s : S) (m : nat) (a : nat) last h c e sl ds e',
      config h = cfg ->
      (forall k, (a <= k <= a + m)%nat ->
                 outcome op k s = Raise (errs k)
                 /\ exn_matches (errs k) errors = true) ->
      Z.of_nat (a + m) = max_retries cfg ->
      run_pauses random_random time_sleep cfg a m e = Some (ds, e') ->
      loop (List.map Z.of_nat (seq a (m + 1))) last h
           (mkWorld (state_before op a s) c e sl)
      = (Raise (errs (a + m)%nat),
         mkRetryHandler cfg (Z.of_nat (a + m) + 1) (List.last ds (_last_delay h)),
         mkWorld (state_before op (a + m + 1) s) (c + m + 1) e' (sl ++ ds)).
Proof.
    intros cfg errs s m. induction m as [|m IH];
      intros a last h c e sl ds e' Hcfg Hfail Hmax Hp.
    - cbn [Nat.add seq List.map retry_loop].
      cbn in Hp. inversion Hp; subst ds e'; clear Hp.
      unfold counted at 1. cbn [op_state calls env sleeps].
      destruct (Hfail a ltac:(lia)) as [Hout Hmatch].
      unfold outcome in Hout.
      destruct (op (state_before op a s)) as [r s'] eqn:Eop. cbn in Hout. subst r.
      rewrite Hmatch. cbn [config set_attempt_count]. rewrite Hcfg.
      rewrite Nat.add_0_r in Hmax.
      replace (Z.of_nat a <? max_retries cfg) with false by (symmetry; apply Z.ltb_ge; lia).
      rewrite !Nat.add_0_r, app_nil_r. cbn [List.last].
      replace (state_before op (a + 1) s) with s'.
      2:{ rewrite Nat.add_1_r. cbn. rewrite Eop. reflexivity. }
      unfold set_attempt_count. rewrite Hcfg. reflexivity.
    - replace (Datatypes.S m + 1)%nat with (Datatypes.S (m + 1)) by lia.
      rewrite seq_cons. cbn [List.map retry_loop].
      unfold counted at 1. cbn [op_state calls env sleeps].
      destruct (Hfail a ltac:(lia)) as [Hout Hmatch].
      unfold outcome in Hout.
      destruct (op (state_before op a s)) as [r s'] eqn:Eop. cbn in Hout. subst r.
      rewrite Hmatch.
      cbn [config set_attempt_count]. rewrite Hcfg.
      replace (Z.of_nat a <? max_retries cfg) with true by (symmetry; apply Z.ltb_lt; lia).
      rewrite get_delay_random_w. cbn [env op_state calls sleeps].
      cbn [run_pauses] in Hp.
      destruct (get_delay random_random cfg (Z.of_nat a) e) as [[d|ex] e1] eqn:Eg; [|discriminate].
      cbn [fst snd].
      unfold recorded_sleep at 1. cbn [env op_state calls sleeps].
      destruct (time_sleep d e1) as [[u|ex] e2] eqn:Es; [|discriminate].
      destruct (run_pauses random_random time_sleep cfg (Datatypes.S a) m e2) as [[ds' e'']|] eqn:Er; [|discriminate].
      inversion Hp; subst ds e'; clear Hp.
      replace s' with (state_before op (Datatypes.S a) s) by (cbn; rewrite Eop; reflexivity).
      rewrite (IH (Datatypes.S a) (Some (errs a)) _ (c + 1)%nat e2 (sl ++ [d]) ds' e'').
      + cbn [_last_delay set_last_delay].
        replace (Datatypes.S a + m)%nat with (a + Datatypes.S m)%nat by lia.
        replace (c + 1 + m + 1)%nat with (c + Datatypes.S m + 1)%nat by lia.
        rewrite <- app_assoc. cbn [app].
        rewrite (last_cons_default ds' d (_last_delay h)). reflexivity.
      + cbn. exact Hcfg.
      + intros k Hk. apply Hfail. lia.
      + lia.
      + exact Er.
Qed.

Lemma range_seq : forall k : nat, range (Z.of_nat k) = List.map Z.of_nat (seq 0 k).
Proof. intros k. unfold range. rewrite Nat2Z.id. reflexivity. Qed.

Lemma range_nonpositive : forall z, z <= 0 -> range z = [].
Proof.
    intros z Hz. unfold range.
    replace (Z.to_nat z) with 0%nat by lia. reflexivity.
Qed.

  (** Without jitter every pause is the value of the backoff formula at
      the index of the attempt that failed. *)
Lemma run_pauses_delays :
    forall cfg, jitter cfg = false ->
    forall m a e ds e',
      run_pauses random_random time_sleep cfg a m e = Some (ds, e') ->
      List.map Return ds
      = List.map (fun k => backoff_formula cfg (Z.of_nat k)) (seq a m).
Proof.
    intros cfg Hj m. induction m as [|m IH]; intros a e ds e' Hp.
    - cbn in Hp. inversion Hp. reflexivity.
    - cbn [run_pauses] in Hp. rewrite seq_cons. cbn [List.map].
      unfold get_delay, bind, ret in Hp. unfold backoff_formula at 1.
      destruct (f_pow (exponential_base cfg) (Z.of_nat a)) as [p|ex]; [|discriminate].
      rewrite Hj in Hp.
      destruct (time_sleep _ e) as [[u|ex] e2]; [|discriminate].
      destruct (run_pauses random_random time_sleep cfg (Datatypes.S a) m e2)
        as [[ds' e'']|] eqn:Er; [|discriminate].
      inversion Hp; subst ds e'; clear Hp.
      cbn [List.map]. f_equal. exact (IH _ _ _ _ Er).
Qed.

  (** C1. An operation that fails [num_failures] times (with errors the
      wrapper was asked to retry) and then returns [v]: when
      [num_failures <= max_retries] the wrapper calls it exactly
      [num_failures + 1] times and returns [v]; when
      [num_failures > max_retries] (and [max_retries] is not negative) it
      raises the error of the last call after exactly [max_retries + 1]
      calls. The pauses between the attempts are assumed to complete. *)
Theorem execute_with_retry_attempts :
    forall (self : RetryHandler F) (s : S) (e : E)
           (num_failures : nat) (errs : nat -> PyExn) (v : T),
      (forall k, (k < num_failures)%nat ->
                 outcome op k s = Raise (errs k)
                 /\ exn_matches (errs k) errors = true) ->
      outcome op num_failures s = Return v ->
      (exists ds e',
          run_pauses random_random time_sleep (config self) 0
            (Nat.min num_failures (Z.to_nat (max_retries (config self)))) e
          = Some (ds, e')) ->
      let run :=
        execute_with_retry (random_w random_random)
          (recorded_sleep time_sleep) (counted op) errors self
          (mkWorld s 0 e []) in
      (Z.of_nat num_failures <= max_retries (config self) ->
       fst (fst run) = Return v
       /\ calls (snd run) = (num_failures + 1)%nat
       /\ attempt_count (snd (fst run)) = Z.of_nat num_failures + 1)
      /\ (max_retries (config self) < Z.of_nat num_failures ->
          0 <= max_retries (config self) ->
          fst (fst run) = Raise (errs (Z.to_nat (max_retries (config self))))
          /\ Z.of_nat (calls (snd run)) = max_retries (config self) + 1
          /\ attempt_count (snd (fst run)) = max_retries (config self) + 1).
Proof.
    intros self s e n errs v Hfail Hok [ds [e' Hp]] run. subst run.
    unfold execute_with_retry. cbn [config set_attempt_count].
    remember (config self) as cfg eqn:Ecfg.
    split.
    - intros Hle.
      assert (Hm : Nat.min n (Z.to_nat (max_retries cfg)) = n) by lia.
      rewrite Hm in Hp.
      replace (max_retries cfg + 1)
        with (Z.of_nat (Z.to_nat (max_retries cfg) + 1)) by lia.
      rewrite range_seq.
      assert (Hrun := @retry_loop_success cfg errs v s n 0
                        (Z.to_nat (max_retries cfg) + 1) None
                        (set_attempt_count self 0) 0%nat e [] ds e').
      cbn [state_before] in Hrun. rewrite Hrun.
      + cbn [fst snd calls attempt_count _attempt_count].
        repeat split; try reflexivity; try lia.
      + cbn. congruence.
      + intros k Hk. apply Hfail. lia.
      + exact Hok.
      + lia.
      + lia.
      + exact Hp.
    - intros Hgt Hnn.
      assert (Hm : Nat.min n (Z.to_nat (max_retries cfg))
                   = Z.to_nat (max_retries cfg)) by lia.
      rewrite Hm in Hp.
      replace (max_retries cfg + 1)
        with (Z.of_nat (Z.to_nat (max_retries cfg) + 1)) by lia.
      rewrite range_seq.
      assert (Hrun := @retry_loop_exhausted cfg errs s
                        (Z.to_nat (max_retries cfg)) 0 None
                        (set_attempt_count self 0) 0%nat e [] ds e').
      cbn [state_before] in Hrun. rewrite Hrun.
      + cbn [fst snd calls Nat.add attempt_count _attempt_count].
        repeat split; lia.
      + cbn. congruence.
      + intros k Hk. apply Hfail. lia.
      + lia.
      + exact Hp.
Qed.

  (** With a negative [max_retries] the loop body never runs: no call is
      made and the wrapper raises its own [RuntimeError]. *)
Lemma execute_with_retry_negative :
    forall (self : RetryHandler F) (w : World F S E),
      max_retries (config self) < 0 ->
      execute_with_retry (random_w random_random)
        (recorded_sleep time_sleep) (counted op) errors self w
      = (Raise (mkExn RuntimeError (lit "Unexpected state in retry handler")),
         set_attempt_count self 0, w).
Proof.
    intros self w Hneg. unfold execute_with_retry.
    cbn [config set_attempt_count].
    rewrite range_nonpositive by lia. reflexivity.
Qed.

  (** C8. With jitter disabled, the delay computed for the attempt of
      index [attempt] is [min(base_delay * exponential_base ** attempt,
      max_delay)], no random number is drawn, and in a run of the wrapper
      the pauses slept after the failed attempts 0, 1, 2, ... are exactly
      the values of that formula at 0, 1, 2, ... *)
Theorem backoff_delay_without_jitter :
    forall (self : RetryHandler F),
      jitter (config self) = false ->
      (forall (attempt : Z) (e : E),
          get_delay random_random (config self) attempt e
          = (backoff_formula (config self) attempt, e))
      /\ (forall (s : S) (e : E) (num_failures : nat) (errs : nat -> PyExn)
                 (v : T) (ds : list F) (e' : E),
             (forall k, (k < num_failures)%nat ->
                        outcome op k s = Raise (errs k)
                        /\ exn_matches (errs k) errors = true) ->
             outcome op num_failures s = Return v ->
             Z.of_nat num_failures <= max_retries (config self) ->
             run_pauses random_random time_sleep (config self) 0
                        num_failures e = Some (ds, e') ->
             let run :=
               execute_with_retry (random_w random_random)
                 (recorded_sleep time_sleep) (counted op) errors self
                 (mkWorld s 0 e []) in
             sleeps (snd run) = ds
             /\ List.map Return ds
                = List.map (fun a => backoff_formula (config self)
                                                     (Z.of_nat a))
                           (seq 0 num_failures)
             /\ last_delay (snd (fst run))
                = List.last ds (_last_delay self)).
Proof.
    intros self Hj. split.
    - intros attempt e. unfold get_delay, backoff_formula, bind, ret.
      destruct (f_pow (exponential_base (config self)) attempt);
        [rewrite Hj|]; reflexivity.
    - intros s e n errs v ds e' Hfail Hok Hle Hp run. subst run.
      unfold execute_with_retry. cbn [config set_attempt_count].
      remember (config self) as cfg eqn:Ecfg.
      replace (max_retries cfg + 1)
        with (Z.of_nat (Z.to_nat (max_retries cfg) + 1)) by lia.
      rewrite range_seq.
      assert (Hrun := @retry_loop_success cfg errs v s n 0
                        (Z.to_nat (max_retries cfg) + 1) None
                        (set_attempt_count self 0) 0%nat e [] ds e').
      cbn [state_before] in Hrun. rewrite Hrun.
      + cbn [fst snd sleeps last_delay _last_delay set_attempt_count app].
        repeat split.
        exact (@run_pauses_delays cfg Hj n 0%nat e ds e' Hp).
      + cbn. congruence.
      + intros k Hk. apply Hfail. lia.
      + exact Hok.
      + lia.
      + lia.
      + exact Hp.
Qed.

End RetryFacts.

  (** Two failures, three retries allowed: three calls, and the value. *)
Lemma execute_with_retry_attempts_witness :
    let run :=
      execute_with_retry (random_w still_random) (recorded_sleep no_sleep)
        (counted (failing_then_succeeding 2)) [Exception] example_handler
        (mkWorld 0%nat 0 tt []) in
    fst (fst run) = Return (lit "success") /\ calls (snd run) = 3%nat.
Proof.
    destruct (@execute_with_retry_attempts Q _ nat unit str
                (failing_then_succeeding 2) still_random no_sleep
                [Exception] example_handler 0%nat tt 2%nat api_error
                (lit "success")) as [Hle _].
    - intros k Hk. destruct k as [|[|k]]; [split; reflexivity ..|lia].
    - reflexivity.
    - eexists. eexists. reflexivity.
    - destruct Hle as (Hr & Hc & _); [cbn; lia|]. split; assumption.
Defined.

  (** Two failures without jitter: the pauses are 1 * 2^0 and 1 * 2^1. *)
Lemma backoff_delay_without_jitter_witness :
    get_delay still_random (config example_handler) 4 tt
    = (backoff_formula (config example_handler) 4, tt)
    /\ sleeps (snd (execute_with_retry (random_w still_random)
                      (recorded_sleep no_sleep)
                      (counted (failing_then_succeeding 2)) [Exception]
                      example_handler (mkWorld 0%nat 0 tt [])))
       = [1%Q; 2%Q].
Proof.
    destruct (@backoff_delay_without_jitter Q _ nat unit str
                (failing_then_succeeding 2) still_random no_sleep
                [Exception] example_handler eq_refl) as [Hd Hrun].
    split; [exact (Hd 4 tt)|].
    destruct (Hrun 0%nat tt 2%nat api_error (lit "success")
                   [1%Q; 2%Q] tt) as (Hs & _ & _).
    - intros k Hk. destruct k as [|[|k]]; [split; reflexivity ..|lia].
    - reflexivity.
    - cbn. lia.
    - vm_compute. reflexivity.
    - exact Hs.
Defined.

End RetryProps.

(* ================================================================== *)
(** * Properties of the summarizer *)
(* ================================================================== *)

Module SummarizerProps.
Import Enums Models Summarizer Harness Doubles.

Section SummarizeSteps.
Context {F : Type} {U : UnicodeOps}.
Context {X Client : Type}.
Variable OpenAI_new : str -> option str -> M X Client.
Variable chat_completions_create : Client -> Request F -> M X Response.

Local Abbreviation Summ := (OpenAISummarizer F Client).

Lemma client_cached :
    forall (self self1 : Summ) x x1 c,
      client OpenAI_new (self, x) = (Return c, (self1, x1)) ->
      forall x', client OpenAI_new (self1, x') = (Return c, (self1, x')).
Proof.
    intros self self1 x x1 c Hc x'.
    unfold client, bind, get_self, set_self, lift_world, ret in *.
    cbn [fst snd] in *.
    destruct (_client self) as [c0|] eqn:Ec.
    - inversion Hc; subst. rewrite Ec. reflexivity.
    - destruct (truthy (or_else (base_url self) []));
        cbn [fst snd] in Hc;
        destruct (OpenAI_new _ _ x) as [[c1|e] x2]; inversion Hc; subst;
        reflexivity.
Qed.

  (** [summarize] on a text that is long enough, step by step. *)
Lemma summarize_long :
    forall text language (st : Summ * X),
      MIN_TEXT_FOR_SUMMARY <= len text ->
      summarize OpenAI_new chat_completions_create text language st
      = match _call_api_with_tokens OpenAI_new chat_completions_create
                (_build_prompt text language) st with
        | (Raise e, st1) => on_error language e st1
        | (Return (s1, t1), st1) =>
            if out_of_bounds (_count_sentences s1) then
              match _call_api_with_tokens OpenAI_new chat_completions_create
                      (adjust_prompt text language (_count_sentences s1))
                      st1 with
              | (Raise e, st2) => on_error language e st2
              | (Return (s2, t2), st2) =>
                  (Return (success_result (fst st2) s2 language (t1 + t2)),
                   st2)
              end
            else (Return (success_result (fst st1) s1 language t1), st1)
        end.
Proof.
    intros text language st Hlen. unfold summarize.
    replace (len text <? MIN_TEXT_FOR_SUMMARY) with false
      by (symmetry; apply Z.ltb_ge; exact Hlen).
    unfold try_except. unfold bind at 1.
    destruct (_call_api_with_tokens OpenAI_new chat_completions_create (_build_prompt text language) st)
      as [[[s1 t1]|e] st1]; [|reflexivity].
    fold (out_of_bounds (_count_sentences s1)).
    destruct (out_of_bounds (_count_sentences s1)).
    - unfold _adjust_summary, bind, get_self, ret.
      destruct (_call_api_with_tokens OpenAI_new chat_completions_create _ st1)
        as [[[s2 t2]|e] st2]; reflexivity.
    - reflexivity.
Qed.

Lemma adjust_prompt_exact :
    forall text language current_count,
      adjust_prompt text language current_count
      = exact_count_prompt (nearer_bound current_count) text language.
Proof.
    intros text language n.
    unfold adjust_prompt, exact_count_prompt, nearer_bound.
    change MIN_SENTENCES with 3. change MAX_SENTENCES with 7.
    destruct (n <? 3); reflexivity.
Qed.

  (** [summarize] turns every error of class [Exception] into a result:
      what it raises, if anything, is outside that class. *)
Lemma summarize_raises_no_Exception :
    forall text language (st st' : Summ * X) e,
      summarize OpenAI_new chat_completions_create text language st = (Raise e, st') ->
      exn_matches e [Exception] = false.
Proof.
    intros text language st st' e Hrun.
    destruct (Z.ltb_spec (len text) MIN_TEXT_FOR_SUMMARY) as [Hs|Hl].
    - unfold summarize in Hrun. apply Z.ltb_lt in Hs. rewrite Hs in Hrun.
      discriminate.
    - rewrite summarize_long in Hrun by exact Hl.
      assert (Herr : forall e0 st1, on_error language e0 st1 = (Raise e, st')
                                    -> exn_matches e [Exception] = false).
      { intros e0 st1. unfold on_error.
        destruct (exn_matches e0 [Exception]) eqn:Hm; intros He;
          inversion He; subst. exact Hm. }
      destruct (_call_api_with_tokens OpenAI_new chat_completions_create _ st) as [[[s1 t1]|e1] st1];
        [|exact (Herr _ _ Hrun)].
      destruct (out_of_bounds (_count_sentences s1)); [|discriminate].
      destruct (_call_api_with_tokens OpenAI_new chat_completions_create _ st1) as [[[s2 t2]|e2] st2];
        [discriminate|exact (Herr _ _ Hrun)].
Qed.
End SummarizeSteps.

Section SummarizerFacts.
Context {F : Type} {U : UnicodeOps}.
Context {X Client : Type}.
Variable OpenAI_new : str -> option str -> M X Client.
Variable chat_completions_create : Client -> Request F -> M X Response.

Local Abbreviation new' := (recorded_new OpenAI_new).
Local Abbreviation create' := (recorded_create chat_completions_create).
Local Abbreviation Summ := (OpenAISummarizer F Client).

  (** The handle the property [client] returns is kept by the object;
      the list of requests is not touched. *)
Lemma client_recorded :
    forall (self : Summ) x (log : list (Request F)),
      client new' (self, (x, log))
      = match client OpenAI_new (self, x) with
        | (r, (self1, x1)) => (r, (self1, (x1, log)))
        end.
Proof.
    intros self x log. unfold client, bind, get_self, set_self, lift_world, ret.
    cbn [fst snd]. destruct (_client self) as [c|]; [reflexivity|].
    unfold recorded_new. cbn [fst snd].
    destruct (truthy (or_else (base_url self) []));
      cbn [fst snd];
      destruct (OpenAI_new _ _ x) as [[c|e] x1]; reflexivity.
Qed.

  (** One call of [_call_api_with_tokens]: no request when the handle
      cannot be built, exactly one otherwise. *)
Lemma call_api_recorded :
    forall prompt (self : Summ) x (log : list (Request F)),
      _call_api_with_tokens new' create' prompt (self, (x, log))
      = match client OpenAI_new (self, x) with
        | (Raise e, (self1, x1)) => (Raise e, (self1, (x1, log)))
        | (Return c, (self1, x1)) =>
            match chat_completions_create c (request_of self1 prompt) x1 with
            | (r, x2) =>
                (reply_of r, (self1, (x2, log ++ [request_of self1 prompt])))
            end
        end.
Proof.
    intros prompt self x log. unfold _call_api_with_tokens.
    unfold bind at 1. rewrite client_recorded.
    destruct (client OpenAI_new (self, x)) as [[c|e] [self1 x1]]; [|reflexivity].
    unfold bind, get_self, lift_world, recorded_create, request_of, reply_of, raise, ret.
    cbn [fst snd].
    destruct (chat_completions_create c _ x1) as [[resp|e] x2]; [|reflexivity].
    destruct (choices resp) as [|[content|] rest]; reflexivity.
Qed.

  (** C6. A text shorter than the threshold is returned as its own
      summary, with its sentence count, and nothing is sent to the
      generation service: the world, the list of requests and the
      summarizer (whose client handle is not even built) are unchanged. *)
Theorem summarize_short_text :
    forall (self : Summ) (text language : str) (x : X)
           (log : list (Request F)),
      len text < MIN_TEXT_FOR_SUMMARY ->
      summarize new' create' text language (self, (x, log))
      = (Return (mkSummaryResult text (_count_sentences text) language true
                   (_get_ai_model self) (Some 0) None None),
         (self, (x, log))).
Proof.
    intros self text language x log Hlen. unfold summarize.
    replace (len text <? MIN_TEXT_FOR_SUMMARY) with true
      by (symmetry; apply Z.ltb_lt; exact Hlen).
    reflexivity.
Qed.

  (** C5. When the first reply has a sentence count outside [3, 7],
      [summarize] sends exactly one more request, whose prompt asks for
      exactly 3 sentences if the count was below 3 and exactly 7 if it was
      above 7; the reply to it is returned with its own sentence count,
      whatever it is, and with the tokens of both calls added. *)
Theorem one_corrective_call :
    forall (self self1 : Summ) (text language : str) (x x1 x2 : X)
           (log : list (Request F)) (c : Client)
           (response1 : Response) (content1 : str) (rest1 : list (option str)),
      MIN_TEXT_FOR_SUMMARY <= len text ->
      client OpenAI_new (self, x) = (Return c, (self1, x1)) ->
      chat_completions_create c
        (request_of self1 (_build_prompt text language)) x1
      = (Return response1, x2) ->
      choices response1 = Some content1 :: rest1 ->
      let count1 := _count_sentences (strip content1) in
      let tokens1 := match usage response1 with Some t => t | None => 0 end in
      count1 < 3 \/ 7 < count1 ->
      let request2 :=
        request_of self1
          (exact_count_prompt (nearer_bound count1) text language) in
      let run := summarize new' create' text language (self, (x, log)) in
      snd (snd (snd run))
      = log ++ [request_of self1 (_build_prompt text language); request2]
      /\ fst (snd (snd run)) = snd (chat_completions_create c request2 x2)
      /\ (forall (response2 : Response) (content2 : str)
                 (rest2 : list (option str)),
             fst (chat_completions_create c request2 x2) = Return response2 ->
             choices response2 = Some content2 :: rest2 ->
             fst run
             = Return (mkSummaryResult (strip content2)
                         (_count_sentences (strip content2)) language true
                         (_get_ai_model self1)
                         (Some (tokens1
                                + match usage response2 with
                                  | Some t => t
                                  | None => 0
                                  end))
                         None None)).
Proof.
    intros self self1 text language x x1 x2 log c response1 content1 rest1
           Hlen Hclient Hcall1 Hchoice1 count1 tokens1 Hout request2 run.
    destruct (chat_completions_create c request2 x2) as [r2 x3] eqn:Hcall2.
    pose (st2 := (self1,
                  (x3, log ++ [request_of self1 (_build_prompt text language);
                               request2]))).
    assert (Hrun : run
                   = match reply_of r2 with
                     | Return (s2, t2) =>
                         (Return (success_result self1 s2 language
                                    (tokens1 + t2)), st2)
                     | Raise e => on_error language e st2
                     end).
    { subst run. rewrite summarize_long by exact Hlen.
      rewrite call_api_recorded, Hclient, Hcall1.
      unfold reply_of at 1. rewrite Hchoice1.
      fold count1 tokens1.
      replace (out_of_bounds count1) with true.
      2:{ symmetry. unfold out_of_bounds. apply orb_true_iff.
          change MIN_SENTENCES with 3. change MAX_SENTENCES with 7.
          destruct Hout; [left; apply Z.ltb_lt|right; apply Z.gtb_lt]; lia. }
      rewrite call_api_recorded, (client_cached _ _ _ Hclient x2).
      rewrite adjust_prompt_exact. fold request2. rewrite Hcall2.
      rewrite <- app_assoc. reflexivity. }
    rewrite Hrun. clear Hrun. cbn [fst snd].
    destruct (reply_of r2) as [[s2 t2]|e] eqn:Hreply.
    - cbn [fst snd]. split; [reflexivity|split; [reflexivity|]].
      intros response2 content2 rest2 Hr2 Hchoice2. subst r2.
      unfold reply_of in Hreply. rewrite Hchoice2 in Hreply.
      inversion Hreply; subst. reflexivity.
    - unfold on_error.
      destruct (exn_matches e [Exception]); cbn [fst snd];
        (split; [reflexivity|split; [reflexivity|]]);
        intros response2 content2 rest2 Hr2 Hchoice2; subst r2;
        unfold reply_of in Hreply; rewrite Hchoice2 in Hreply; discriminate.
Qed.

  (** C3, as the code has it. On a text that is long enough, a successful
      result carries the sentence count of its summary; the count is
      within [3, 7] when a single request was sent, and after the
      corrective request it is the count of the corrective reply, which is
      not checked. *)
Theorem sentence_count_after_correction :
    forall (self : Summ) (text language : str) (x : X)
           (log : list (Request F)) (res : SummaryResult)
           (st' : Summ * (X * list (Request F))),
      MIN_TEXT_FOR_SUMMARY <= len text ->
      summarize new' create' text language (self, (x, log))
      = (Return res, st') ->
      sr_success res = true ->
      sentence_count res = _count_sentences (summary res)
      /\ ((exists request1, snd (snd st') = log ++ [request1])
           /\ MIN_SENTENCES <= sentence_count res <= MAX_SENTENCES
          \/ (exists request1 request2,
                 snd (snd st') = log ++ [request1; request2])).
Proof.
    intros self text language x log res st' Hlen Hrun Hsucc.
    rewrite summarize_long in Hrun by exact Hlen.
    rewrite call_api_recorded in Hrun.
    assert (Herr : forall e st1, on_error language e st1 = (Return res, st')
                                 -> False).
    { intros e st1. unfold on_error.
      destruct (exn_matches e [Exception]); intros He; inversion He; subst.
      cbn in Hsucc. discriminate. }
    destruct (client OpenAI_new (self, x)) as [[c|e] [self1 x1]] eqn:Hclient;
      [|exfalso; exact (Herr _ _ Hrun)].
    destruct (chat_completions_create c _ x1) as [r1 x2].
    destruct (reply_of r1) as [[s1 t1]|e];
      [|exfalso; exact (Herr _ _ Hrun)].
    destruct (out_of_bounds (_count_sentences s1)) eqn:Hb.
    - rewrite call_api_recorded, (client_cached _ _ _ Hclient x2) in Hrun.
      destruct (chat_completions_create c _ x2) as [r2 x3].
      destruct (reply_of r2) as [[s2 t2]|e];
        [|exfalso; exact (Herr _ _ Hrun)].
      inversion Hrun; subst. cbn [fst snd sentence_count summary success_result].
      split; [reflexivity|]. right. eexists. eexists.
      rewrite <- app_assoc. reflexivity.
    - inversion Hrun; subst. cbn [fst snd sentence_count summary success_result].
      split; [reflexivity|]. left. split; [eexists; reflexivity|].
      unfold out_of_bounds in Hb. apply orb_false_iff in Hb.
      destruct Hb as [Hlo Hhi].
      apply Z.ltb_ge in Hlo. rewrite Z.gtb_ltb in Hhi. apply Z.ltb_ge in Hhi.
      split; assumption.
Qed.

End SummarizerFacts.

  (** A note of eleven characters comes back as it is. *)
Lemma summarize_short_text_witness :
    fst (summarize (U:=ascii_UnicodeOps) (recorded_new (Processor.OpenAI_new one_sentence_externals))
           (recorded_create (Processor.chat_completions_create one_sentence_externals))
           (lit "Short note.") (lit "en")
           (test_summarizer, (fresh_world, [])))
    = Return (mkSummaryResult (lit "Short note.") 1 (lit "en") true
                OPENAI_GPT4 (Some 0) None None).
Proof.
    rewrite (@summarize_short_text Q ascii_UnicodeOps TestWorld unit (Processor.OpenAI_new one_sentence_externals)
               (Processor.chat_completions_create one_sentence_externals) test_summarizer
               (lit "Short note.") (lit "en") fresh_world []).
    - vm_compute. reflexivity.
    - vm_compute. reflexivity.
Defined.

  (** The service that answers with one sentence is asked once more, for
      exactly 3 sentences, and its second answer is returned. *)
Lemma one_corrective_call_witness :
    let run :=
      summarize (U:=ascii_UnicodeOps) (recorded_new (Processor.OpenAI_new one_sentence_externals))
        (recorded_create (Processor.chat_completions_create one_sentence_externals))
        long_text (lit "en") (test_summarizer, (fresh_world, [])) in
    List.map (@req_user Q) (snd (snd (snd run)))
    = [_build_prompt long_text (lit "en");
       exact_count_prompt 3 long_text (lit "en")]
    /\ fst run
       = Return (mkSummaryResult (lit "Only one sentence.") 1 (lit "en") true
                   OPENAI_GPT4 (Some 20) None None).
Proof.
    destruct (@one_corrective_call Q ascii_UnicodeOps TestWorld unit (Processor.OpenAI_new one_sentence_externals)
                (Processor.chat_completions_create one_sentence_externals)
                test_summarizer (set_client test_summarizer tt)
                long_text (lit "en") fresh_world fresh_world
                (mkTestWorld 1 0 0 [] []) [] tt
                (mkResponse [Some (lit "Only one sentence.")] (Some 10))
                (lit "Only one sentence.") [])
      as (Hlog & _ & Hres).
    - vm_compute. discriminate.
    - vm_compute. reflexivity.
    - vm_compute. reflexivity.
    - vm_compute. reflexivity.
    - left. vm_compute. reflexivity.
    - split.
      + rewrite Hlog. vm_compute. reflexivity.
      + rewrite (Hres (mkResponse [Some (lit "Only one sentence.")] (Some 10))
                      (lit "Only one sentence.") []);
          vm_compute; reflexivity.
Defined.

  (** The same run, read through the amended bound: the count returned,
      1, is that of the corrective reply, and two requests were sent. *)
Lemma sentence_count_after_correction_witness :
    exists request1 request2 : Request Q,
      snd (snd (snd (summarize (U:=ascii_UnicodeOps)
                       (recorded_new (Processor.OpenAI_new
                                        one_sentence_externals))
                       (recorded_create
                          (Processor.chat_completions_create
                             one_sentence_externals))
                       long_text (lit "en")
                       (test_summarizer, (fresh_world, [])))))
      = [] ++ [request1; request2].
Proof.
    destruct (@sentence_count_after_correction Q ascii_UnicodeOps TestWorld
                unit (Processor.OpenAI_new one_sentence_externals)
                (Processor.chat_completions_create one_sentence_externals)
                test_summarizer long_text (lit "en") fresh_world []
                (mkSummaryResult (lit "Only one sentence.") 1 (lit "en") true
                   OPENAI_GPT4 (Some 20) None None)
                (snd (summarize (U:=ascii_UnicodeOps)
                        (recorded_new (Processor.OpenAI_new
                                         one_sentence_externals))
                        (recorded_create
                           (Processor.chat_completions_create
                              one_sentence_externals))
                        long_text (lit "en")
                        (test_summarizer, (fresh_world, [])))))
      as [_ [[_ Hbound]|Htwo]].
    - vm_compute. discriminate.
    - vm_compute. reflexivity.
    - reflexivity.
    - cbn [sentence_count] in Hbound. unfold MIN_SENTENCES in Hbound. lia.
    - exact Htwo.
Defined.

  (** C3 as stated fails: a text of 116 characters, a service that
      answers both requests with one sentence, and [summarize] reports
      success with a sentence count of 1. *)
Lemma sentence_count_bounds_counterexample :
    exists res,
      MIN_TEXT_FOR_SUMMARY <= len long_text
      /\ fst (summarize (U:=ascii_UnicodeOps) (Processor.OpenAI_new one_sentence_externals)
                (Processor.chat_completions_create one_sentence_externals)
                long_text (lit "en") (test_summarizer, fresh_world))
         = Return res
      /\ sr_success res = true
      /\ ~ (3 <= sentence_count res <= 7).
Proof.
    exists (mkSummaryResult (lit "Only one sentence.") 1 (lit "en") true
              OPENAI_GPT4 (Some 20) None None).
    split; [vm_compute; discriminate|].
    split; [vm_compute; reflexivity|].
    split; [reflexivity|].
    cbn [sentence_count]. lia.
Qed.

End SummarizerProps.

(* ================================================================== *)
(** * Properties of the plain-text parser *)
(* ================================================================== *)

Module ParserProps.
Import Enums Models Parsers Doubles.

Section TXTParserFacts.
Context {F : Type} {U : UnicodeOps}.
Context {X : Type}.
Variable open_read : str -> str -> M X str.
Variable chardet_detect_file : str -> M X (option str).

  (** What a text parser returns for a decoded text that is not empty. *)
Lemma result_of_text_nonempty :
    forall text : str,
      0 < len text ->
      result_of_text (F:=F) text
      = mkParseResult text (len text) true PLAIN_READ None None false None.
Proof.
    intros text Hpos. unfold result_of_text, ParseResult_new.
    replace (len text =? 0) with false by (symmetry; apply Z.eqb_neq; lia).
    rewrite andb_false_r. reflexivity.
Qed.

Lemma result_of_text_empty :
    forall text : str,
      len text = 0 ->
      result_of_text (F:=F) text
      = mkParseResult [] 0 false PLAIN_READ (Some (lit "Document is empty"))
                      (Some EMPTY_DOCUMENT) false None.
Proof.
    intros text Hz. unfold result_of_text. rewrite Hz. reflexivity.
Qed.

  (** C9, as the code has it. When the UTF-8 read of a file decodes a text
      of exactly 5 characters, [TXTParser.parse] succeeds with that text
      and a count of 5; the empty-document failure is returned exactly
      when the decoded text has no character. *)
Theorem txt_parse_five_characters :
    forall (file_path text : str) (x x' : X),
      open_read file_path (lit "utf-8") x = (Return text, x') ->
      (len text = 5 ->
       TXTParser_parse (F:=F) open_read chardet_detect_file file_path x
       = (Return (mkParseResult text 5 true PLAIN_READ None None false None),
          x'))
      /\ (forall res,
             fst (TXTParser_parse (F:=F) open_read chardet_detect_file
                    file_path x) = Return res ->
             (pr_error_scenario res = Some EMPTY_DOCUMENT <-> len text = 0)).
Proof.
    intros file_path text x x' Hread. unfold TXTParser_parse. rewrite Hread.
    split.
    - intros H5. rewrite result_of_text_nonempty by lia. rewrite H5.
      reflexivity.
    - intros res Hres. cbn [fst] in Hres. inversion Hres; subst res; clear Hres.
      assert (Hlen : 0 <= len text) by (unfold len; lia).
      destruct (Z.eq_dec (len text) 0) as [Hz|Hnz].
      + rewrite result_of_text_empty by exact Hz. cbn. tauto.
      + rewrite result_of_text_nonempty by lia. cbn.
        split; [discriminate|intros; contradiction].
Qed.
End TXTParserFacts.

  (** The file "notes.txt" holds "hello". *)
Lemma txt_parse_five_characters_witness :
    TXTParser_parse (F:=Q) (U:=ascii_UnicodeOps)
      (scripted_read five_characters) (fun _ => ret None)
      (lit "notes.txt") fresh_world
    = (Return (mkParseResult (lit "hello") 5 true PLAIN_READ None None false
                 None), fresh_world).
Proof.
    destruct (@txt_parse_five_characters Q ascii_UnicodeOps TestWorld
                (scripted_read five_characters) (fun _ => ret None)
                (lit "notes.txt") (lit "hello") fresh_world fresh_world)
      as [H5 _].
    - vm_compute. reflexivity.
    - apply H5. vm_compute. reflexivity.
Defined.

  (** C9 as stated fails: the decoded content of "notes.txt" has exactly
      5 characters and the result is a success, not an empty-document
      failure. *)
Lemma txt_parse_five_characters_counterexample :
    exists res : ParseResult Q,
      fst (TXTParser_parse (U:=ascii_UnicodeOps)
             (scripted_read five_characters) (fun _ => ret None)
             (lit "notes.txt") fresh_world) = Return res
      /\ len (text res) = 5
      /\ ~ (pr_success res = false
            /\ pr_error_scenario res = Some EMPTY_DOCUMENT).
Proof.
    exists (mkParseResult (lit "hello") 5 true PLAIN_READ None None false None).
    split; [vm_compute; reflexivity|].
    split; [vm_compute; reflexivity|].
    cbn [pr_success]. intros [Hs _]. discriminate.
Qed.

End ParserProps.

(* ================================================================== *)
(** * Properties of the keyword extractor *)
(* ================================================================== *)

Module KeywordsProps.
Import Enums Models Keywords Doubles.

Lemma slice_to_max_length :
    forall (A : Type) (l : list A),
      (List.length (slice_to MAX_KEYWORDS l) <= 10)%nat.
Proof.
    intros A l. unfold slice_to, MAX_KEYWORDS. cbn [Z.leb Z.compare].
    apply firstn_le_length.
Qed.

Lemma slice_to_short :
    forall (A : Type) (l : list A),
      Z.of_nat (List.length l) < MIN_KEYWORDS ->
      slice_to MAX_KEYWORDS l = l.
Proof.
    intros A l Hl. unfold slice_to, MAX_KEYWORDS. cbn [Z.leb Z.compare].
    apply firstn_all2. unfold MIN_KEYWORDS in Hl. lia.
Qed.

  (** [__post_init__] leaves a count that is the length of the list. *)
Lemma KeywordsResult_new_length :
    forall (kws : list str) formatted success method msg scenario,
      KeywordsResult_new kws formatted (Z.of_nat (List.length kws)) success
                         method msg scenario
      = mkKeywordsResult kws formatted (Z.of_nat (List.length kws)) success
                         method msg scenario.
Proof.
    intros kws formatted success method msg scenario.
    unfold KeywordsResult_new. destruct kws as [|k kws].
    - rewrite andb_false_r. reflexivity.
    - replace (Z.of_nat (List.length (k :: kws)) =? 0) with false
        by (symmetry; apply Z.eqb_neq; cbn [List.length]; lia).
      rewrite andb_false_r. reflexivity.
Qed.

Section KeywordExtractorFacts.
Context {F : Type} `{FloatOps F} {U : UnicodeOps}.
Context {X : Type}.
Variable yake_extract_keywords : YakeArgs F -> str -> M X (list (str * F)).
Variable LanguageDetector_detect : str -> str.

  (** C4, as the code has it. A successful result has a count equal to
      the length of its list and at most 10, and its rendering is the list
      joined with ", ". The count is below 5 only when the first scoring
      pass yields fewer than 5 phrases and the single re-run with phrases
      of up to 3 words does too: the phrases of the re-run are then
      returned as they are, with success still true. *)
Theorem extract_count_bounds :
    forall (self : KeywordExtractor F) (text : str) (count0 : option Z)
           (language0 : option str) (x x' : X) (res : KeywordsResult),
      extract yake_extract_keywords LanguageDetector_detect self text
              count0 language0 x = (Return res, x') ->
      kr_success res = true ->
      let wanted :=
        Z.max 5 (Z.min (match count0 with Some c => c | None => 10 end) 10) in
      let language :=
        match language0 with
        | Some l => l
        | None => LanguageDetector_detect text
        end in
      count res = Z.of_nat (List.length (keywords res))
      /\ count res <= 10
      /\ formatted res = join (lit ", ") (keywords res)
      /\ (count res < 5 ->
          exists (first : list str) (x1 : X),
            _extract_with_yake yake_extract_keywords self text wanted
                               language None x = (Return first, x1)
            /\ Z.of_nat (List.length first) < 5
            /\ _extract_with_yake yake_extract_keywords self text wanted
                                  language (Some 3) x1
               = (Return (keywords res), x')).
Proof.
    intros self text count0 language0 x x' res Hrun Hsucc wanted language.
    unfold extract in Hrun.
    change MAX_KEYWORDS with 10 in Hrun. change MIN_KEYWORDS with 5 in Hrun.
    fold wanted in Hrun.
    destruct (negb (truthy text) || (len (strip text) <? 10)).
    { unfold ret in Hrun. inversion Hrun; subst. discriminate. }
    fold language in Hrun. unfold try_except, bind in Hrun.
    destruct (_extract_with_yake yake_extract_keywords self text wanted
                language None x) as [[first|e] x1] eqn:Hfirst.
    2:{ destruct (exn_matches e [Exception]); unfold ret in Hrun;
        inversion Hrun; subst; discriminate. }
    destruct (Z.of_nat (List.length first) <? 5) eqn:Hshort.
    - destruct (_extract_with_yake yake_extract_keywords self text wanted
                  language (Some 3) x1) as [[second|e] x2] eqn:Hsecond.
      2:{ destruct (exn_matches e [Exception]); unfold ret in Hrun;
          inversion Hrun; subst; discriminate. }
      unfold ret in Hrun. rewrite KeywordsResult_new_length in Hrun.
      inversion Hrun; subst res x2; clear Hrun.
      cbn [count keywords formatted].
      pose proof (slice_to_max_length second) as Hmax.
      change (slice_to 10 second) with (slice_to MAX_KEYWORDS second).
      repeat split; try reflexivity; try lia.
      intros Hlow. exists first, x1.
      apply Z.ltb_lt in Hshort.
      assert (Hsec : Z.of_nat (List.length second) < MIN_KEYWORDS).
      { unfold MIN_KEYWORDS.
        destruct (Z.lt_ge_cases (Z.of_nat (List.length second)) 5) as [Hl|Hg];
          [exact Hl|].
        exfalso. unfold slice_to, MAX_KEYWORDS in Hlow.
        cbn [Z.leb Z.compare] in Hlow. rewrite length_firstn in Hlow. lia. }
      rewrite (slice_to_short _ Hsec). repeat split; assumption.
    - unfold ret in Hrun. rewrite KeywordsResult_new_length in Hrun.
      inversion Hrun; subst res x1; clear Hrun.
      cbn [count keywords formatted].
      pose proof (slice_to_max_length first) as Hmax.
      change (slice_to 10 first) with (slice_to MAX_KEYWORDS first).
      repeat split; try reflexivity; try lia.
      intros Hlow. exfalso. apply Z.ltb_ge in Hshort.
      unfold slice_to, MAX_KEYWORDS in Hlow.
      cbn [Z.leb Z.compare] in Hlow. rewrite length_firstn in Hlow. lia.
Qed.
End KeywordExtractorFacts.

  (** C4 as stated fails: for the text "hello world" the scorer finds
      three phrases on both passes, and [extract] reports success with a
      count of 3. *)
Lemma extract_count_bounds_counterexample :
    exists res : KeywordsResult,
      fst (extract (U:=ascii_UnicodeOps) (scripted_yake hello_world_phrases)
             detect_en default_KeywordExtractor (lit "hello world") None
             (Some (lit "en")) fresh_world) = Return res
      /\ kr_success res = true
      /\ ~ (5 <= count res <= 10).
Proof.
    exists (mkKeywordsResult [lit "hello world"; lit "hello"; lit "world"]
              (lit "hello world, hello, world") 3 true (lit "yake") None None).
    split; [vm_compute; reflexivity|].
    split; [reflexivity|].
    cbn [count]. lia.
Qed.

  (** The same run through the amended statement. *)
Lemma extract_count_bounds_witness :
    count (mkKeywordsResult [lit "hello world"; lit "hello"; lit "world"]
             (lit "hello world, hello, world") 3 true (lit "yake") None None)
    <= 10.
Proof.
    destruct (@extract_count_bounds Q ascii_UnicodeOps TestWorld
                (scripted_yake hello_world_phrases) detect_en
                default_KeywordExtractor (lit "hello world") None
                (Some (lit "en")) fresh_world
                (mkTestWorld 0 2 0 [] [])
                (mkKeywordsResult [lit "hello world"; lit "hello"; lit "world"]
                   (lit "hello world, hello, world") 3 true (lit "yake")
                   None None))
      as (_ & Hmax & _).
    - vm_compute. reflexivity.
    - reflexivity.
    - exact Hmax.
Defined.

End KeywordsProps.

(* ================================================================== *)
(** * Properties of the orchestrator *)
(* ================================================================== *)

Module ProcessorProps.
Import Enums Models Config Retry Summarizer Keywords Parsers Processor.
Import Harness Doubles SummarizerProps.

Lemma Return_proj :
    forall (A B : Type) (f : A -> B) (a b : A),
      Return a = Return b -> f a = f b.
Proof. intros A B f a b Heq. injection Heq as ->. reflexivity. Qed.

Section RetryOnce.
Context {F : Type} `{FloatOps F}.
Context {X T : Type}.
Variable random_random : X -> F * X.
Variable time_sleep : F -> M X unit.
Variable func : M X T.
Variable errors : list ExnClass.

  (** An operation that raises nothing the wrapper retries is called
      once, when the loop runs at all. *)
Lemma execute_with_retry_once :
    forall (self : RetryHandler F) (x : X),
      0 <= max_retries (Retry.config self) ->
      (forall e x', func x = (Raise e, x') -> exn_matches e errors = false) ->
      execute_with_retry random_random time_sleep func errors self x
      = (fst (func x), set_attempt_count self 1, snd (func x)).
Proof.
    intros self x Hmax Hraise. unfold execute_with_retry.
    cbn [Retry.config set_attempt_count].
    replace (max_retries (Retry.config self) + 1)
      with (Z.of_nat (Datatypes.S (Z.to_nat (max_retries (Retry.config self)))))
      by lia.
    unfold range. rewrite Nat2Z.id. cbn [seq List.map retry_loop].
    destruct (func x) as [[v|e] x'] eqn:Hf; cbn [fst snd].
    - reflexivity.
    - rewrite (Hraise e x' eq_refl). reflexivity.
Qed.

Lemma execute_with_retry_no_attempt :
    forall (self : RetryHandler F) (x : X),
      max_retries (Retry.config self) < 0 ->
      execute_with_retry random_random time_sleep func errors self x
      = (Raise (mkExn RuntimeError (lit "Unexpected state in retry handler")),
         set_attempt_count self 0, x).
Proof.
    intros self x Hneg. unfold execute_with_retry.
    cbn [Retry.config set_attempt_count]. unfold range.
    replace (Z.to_nat (max_retries (Retry.config self) + 1)) with 0%nat by lia.
    reflexivity.
Qed.
End RetryOnce.

Section DocumentProcessorFacts.
Context {F : Type} `{FloatOps F} {U : UnicodeOps}.
Context {X Client : Type}.
Variable ext : Externals X F Client.
Variable LanguageDetector_detect : str -> str.

Local Abbreviation Proc := (DocumentProcessor F Client).

  (** The summarization stage never retries: since [summarize] turns
      every error into a result, the wrapper returns after the first
      attempt, whatever [max_retries] allows. *)
Lemma summarize_with_retry_single_attempt :
    forall (self : Proc) (text language : str) (x : X),
      0 <= max_retries (Retry.config (retry_handler self)) ->
      _summarize_with_retry ext text language (self, x)
      = match summarize (OpenAI_new ext) (chat_completions_create ext)
                text language (summarizer self, x) with
        | (r, (summarizer', x')) => (r, (after_summarize self summarizer', x'))
        end.
Proof.
    intros self text language x Hmax. unfold _summarize_with_retry.
    cbn [fst snd].
    rewrite execute_with_retry_once.
    - destruct (summarize _ _ text language (summarizer self, x))
        as [[v|e] [s' x']] eqn:Hs; cbn [fst snd]; [reflexivity|].
      rewrite (summarize_raises_no_Exception _ _ _ _ _ Hs). reflexivity.
    - exact Hmax.
    - intros e st' Hs.
      exact (summarize_raises_no_Exception _ _ _ _ _ Hs).
Qed.

  (** A successful result of [summarize] carries no error message. *)
Lemma summarize_success_no_message :
    forall text language (st st' : OpenAISummarizer F Client * X) res,
      summarize (OpenAI_new ext) (chat_completions_create ext) text language st
      = (Return res, st') ->
      sr_success res = true ->
      sr_error_message res = None.
Proof.
    intros text language st st' res Hrun Hsucc.
    destruct (Z.ltb_spec (len text) MIN_TEXT_FOR_SUMMARY) as [Hs|Hl].
    - unfold summarize in Hrun. apply Z.ltb_lt in Hs. rewrite Hs in Hrun.
      inversion Hrun. reflexivity.
    - rewrite summarize_long in Hrun by exact Hl.
      assert (Herr : forall e st1, on_error language e st1 = (Return res, st')
                                   -> sr_error_message res = None).
      { intros e st1. unfold on_error.
        destruct (exn_matches e [Exception]); intros He; inversion He; subst.
        cbn [sr_success failure_result] in Hsucc. discriminate Hsucc. }
      destruct (_call_api_with_tokens _ _ _ st) as [[[s1 t1]|e1] st1];
        [|exact (Herr _ _ Hrun)].
      destruct (out_of_bounds (_count_sentences s1)).
      + destruct (_call_api_with_tokens _ _ _ st1) as [[[s2 t2]|e2] st2];
          [|exact (Herr _ _ Hrun)].
        inversion Hrun. reflexivity.
      + inversion Hrun. reflexivity.
Qed.

  (** So does a successful result of the summarization stage. *)
Lemma summarize_with_retry_success_no_message :
    forall (self : Proc) text language (x : X) res st',
      _summarize_with_retry ext text language (self, x) = (Return res, st') ->
      sr_success res = true ->
      sr_error_message res = None.
Proof.
    intros self text language x res st' Hrun Hsucc.
    destruct (Z.lt_ge_cases (max_retries (Retry.config (retry_handler self))) 0)
      as [Hneg|Hpos].
    - unfold _summarize_with_retry in Hrun. cbn [fst snd] in Hrun.
      rewrite execute_with_retry_no_attempt in Hrun by exact Hneg.
      cbn [exn_matches exn_class existsb issubclass orb] in Hrun.
      unfold bind, log, lift_world, ret in Hrun. cbn [fst snd] in Hrun.
      destruct (logger ext _ x) as [[u|e] x1]; [|discriminate].
      cbn [fst snd] in Hrun.
      destruct (logger ext _ x1) as [[u'|e] x2]; [|discriminate].
      apply (f_equal fst) in Hrun. cbn [fst] in Hrun.
      assert (Hs : sr_success res = false).
      { change (match Return res with
                | Return v => sr_success v
                | Raise _ => false
                end = false).
        rewrite <- Hrun. reflexivity. }
      congruence.
    - rewrite summarize_with_retry_single_attempt in Hrun by exact Hpos.
      destruct (summarize _ _ text language (summarizer self, x))
        as [r [s' x']] eqn:Hs.
      inversion Hrun; subst.
      exact (summarize_success_no_message _ _ _ Hs Hsucc).
Qed.

Lemma parse_document_keeps_self :
    forall (self self' : Proc) file_path file_type (x x' : X) r,
      _parse_document ext file_path file_type (self, x) = (r, (self', x')) ->
      self' = self.
Proof.
    intros self self' file_path file_type x x' r.
    unfold _parse_document.
    destruct (get_parser_by_type file_type) as [parser|].
    - unfold try_except, lift_world, log, bind, ret. cbn [fst snd].
      destruct (parse _ _ _ _ parser file_path x) as [[v|e] x1].
      + intros Hr. inversion Hr. reflexivity.
      + destruct (exn_matches e [Exception]).
        * unfold lift_world. cbn [fst snd].
          destruct (logger ext _ x1) as [[u|e'] x2];
            intros Hr; inversion Hr; reflexivity.
        * intros Hr. inversion Hr. reflexivity.
    - unfold ret. intros Hr. inversion Hr. reflexivity.
Qed.

  (** C2. When the parse stage returns a result with [success = false],
      [process_document] returns a FAILED aggregate with the scenario of
      that result; the summary and the keywords are the empty defaults
      with the same scenario; and nothing else runs: the metadata carries
      no detected language, the processor (retry handler, summarizer and
      its client handle) is unchanged, and the world is the one the parse
      stage left, advanced by one reading of the clock. *)
Theorem parse_failure_short_circuits :
    forall (self self' : Proc) (file_path : str) (metadata : Metadata)
           (on_progress : option (str -> M X unit))
           (x x1 x2 x3 x4 : X) (t0 : F) (pr : ParseResult F),
      time_time ext x = (t0, x1) ->
      logger ext (log_upload metadata) x1 = (Return tt, x2) ->
      match on_progress with
      | Some callback => callback PROCESSING_STARTED x2 = (Return tt, x3)
      | None => x3 = x2
      end ->
      _parse_document ext file_path (file_type metadata) (self, x3)
      = (Return pr, (self', x4)) ->
      pr_success pr = false ->
      process_document ext LanguageDetector_detect file_path metadata
                       on_progress (self, x)
      = (Return
           (mkProcessingResult metadata pr
              (mkSummaryResult [] 0 (or_else (language metadata) (lit "en"))
                 false OPENAI_GPT4 None None (pr_error_scenario pr))
              (mkKeywordsResult [] [] 0 false (lit "yake") None
                 (pr_error_scenario pr))
              FAILED (f_sub (fst (time_time ext x4)) t0)
              (pr_error_scenario pr)),
         (self, snd (time_time ext x4))).
Proof.
    intros self self' file_path metadata on_progress x x1 x2 x3 x4 t0 pr
           Hclock Hupload Hprogress Hparse Hfail.
    assert (self' = self) by exact (parse_document_keeps_self _ _ _ _ Hparse).
    subst self'.
    unfold process_document.
    unfold bind at 1. unfold now at 1, lift_world at 1, total at 1.
    cbn [fst snd]. rewrite Hclock.
    unfold bind at 1. unfold log at 1, lift_world at 1.
    cbn [fst snd]. rewrite Hupload.
    unfold bind at 1.
    assert (Hrest : forall k : unit -> M (Proc * X) (ProcessingResult F),
               (let (r, st) :=
                  match on_progress with
                  | Some callback => lift_world (callback PROCESSING_STARTED)
                  | None => ret tt
                  end (self, x2) in
                match r with
                | Return a => k a st
                | Raise e => (Raise e, st)
                end) = k tt (self, x3)).
    { intros k. destruct on_progress as [callback|].
      - unfold lift_world. cbn [fst snd]. rewrite Hprogress. reflexivity.
      - subst x3. reflexivity. }
    rewrite Hrest. clear Hrest.
    unfold bind at 1. rewrite Hparse. rewrite Hfail.
    cbn [negb]. unfold bind, now, lift_world, total, ret. cbn [fst snd].
    destruct (time_time ext x4) as [t1 x5]. cbn [fst snd].
    reflexivity.
Qed.

  (** In every aggregate [process_document] returns, the summary carries
      an error message only when the summarization stage itself failed. *)
Lemma process_document_summary_message :
    forall (file_path : str) (metadata : Metadata)
           (on_progress : option (str -> M X unit))
           (st st' : Proc * X) (result : ProcessingResult F),
      process_document ext LanguageDetector_detect file_path metadata
                       on_progress st = (Return result, st') ->
      pr_success (parse_result result) = false
      \/ sr_success (summary_result result) = true ->
      sr_error_message (summary_result result) = None.
Proof.
    intros file_path metadata on_progress st st' result Hrun Hstage.
    unfold process_document in Hrun.
    unfold bind at 1 in Hrun.
    destruct (now ext st) as [[t0|e] st1]; [|discriminate].
    unfold bind at 1 in Hrun.
    destruct (log ext (log_upload metadata) st1) as [[u|e] st2]; [|discriminate].
    unfold bind at 1 in Hrun.
    destruct (match on_progress with
              | Some callback => lift_world (callback PROCESSING_STARTED)
              | None => ret tt
              end st2) as [[u'|e] st3]; [|discriminate].
    unfold bind at 1 in Hrun.
    destruct (_parse_document ext file_path (file_type metadata) st3)
      as [[pr|e] st4]; [|discriminate].
    destruct (pr_success pr) eqn:Hpr; cbn [negb] in Hrun.
    2:{ unfold bind at 1 in Hrun.
        destruct (now ext st4) as [[t|e] st5]; [|discriminate].
        unfold ret in Hrun.
        apply (f_equal fst) in Hrun. cbn [fst] in Hrun.
        rewrite <- (Return_proj
                      (fun r => sr_error_message (summary_result r)) Hrun).
        reflexivity. }
    unfold bind at 1 in Hrun.
    destruct (log ext _ st4) as [[u4|e] st5]; [|discriminate].
    unfold bind at 1 in Hrun.
    destruct st5 as [self5 x5].
    destruct (_summarize_with_retry ext (text pr)
                (LanguageDetector_detect (text pr)) (self5, x5))
      as [[sr|e] st6] eqn:Hsum; [|discriminate].
    pose proof (summarize_with_retry_success_no_message _ _ _ _ Hsum) as Hmsg.
    destruct (sr_success sr) eqn:Hsr; cbn [negb] in Hrun.
    2:{ unfold bind at 1 in Hrun.
        destruct (now ext st6) as [[t|e] st7]; [|discriminate].
        unfold ret in Hrun.
        apply (f_equal fst) in Hrun. cbn [fst] in Hrun.
        pose proof (Return_proj (fun r => pr_success (parse_result r)) Hrun)
          as Hp.
        pose proof (Return_proj (fun r => sr_success (summary_result r)) Hrun)
          as Hs.
        cbn beta in Hp, Hs.
        change (pr_success pr = pr_success (parse_result result)) in Hp.
        change (sr_success sr = sr_success (summary_result result)) in Hs.
        destruct Hstage; congruence. }
    specialize (Hmsg eq_refl).
    unfold bind at 1 in Hrun. unfold get_self at 1 in Hrun.
    unfold bind at 1 in Hrun.
    destruct (log ext _ st6) as [[u6|e] st7]; [|discriminate].
    unfold bind at 1 in Hrun.
    destruct (_extract_keywords ext LanguageDetector_detect (text pr)
                (LanguageDetector_detect (text pr)) st7)
      as [[kr|e] st8]; [|discriminate].
    destruct (kr_success kr); cbn [negb] in Hrun.
    - unfold bind at 1 in Hrun.
      destruct (log ext _ st8) as [[u8|e] st9]; [|discriminate].
      unfold bind at 1 in Hrun.
      destruct (now ext st9) as [[t|e] st10]; [|discriminate].
      unfold ret in Hrun. apply (f_equal fst) in Hrun. cbn [fst] in Hrun.
      rewrite <- (Return_proj
                    (fun r => sr_error_message (summary_result r)) Hrun).
      exact Hmsg.
    - unfold bind at 1 in Hrun.
      destruct (now ext st8) as [[t|e] st9]; [|discriminate].
      unfold ret in Hrun. apply (f_equal fst) in Hrun. cbn [fst] in Hrun.
      rewrite <- (Return_proj
                    (fun r => sr_error_message (summary_result r)) Hrun).
      exact Hmsg.
Qed.

  (** C10. The error-message field of the persistence row is read from
      the summarization result alone; so for every aggregate
      [process_document] returns after a failure of the extraction stage
      or of the keyword stage, the field is the empty string, whatever
      message the parse result or the keywords result carries. *)
Theorem sheets_row_error_message :
    (forall result : ProcessingResult F,
        row_error_message (create_sheets_row result)
        = or_else (sr_error_message (summary_result result)) []
        /\ (sr_error_message (summary_result result) = None ->
            row_error_message (create_sheets_row result) = []))
    /\ (forall (file_path : str) (metadata : Metadata)
               (on_progress : option (str -> M X unit))
               (st st' : Proc * X) (result : ProcessingResult F),
           process_document ext LanguageDetector_detect file_path metadata
                            on_progress st = (Return result, st') ->
           pr_success (parse_result result) = false
           \/ (sr_success (summary_result result) = true
               /\ kr_success (keywords_result result) = false) ->
           row_error_message (create_sheets_row result) = []).
Proof.
    split.
    - intros result. split; [reflexivity|].
      intros Hnone. unfold create_sheets_row. cbn [row_error_message].
      rewrite Hnone. reflexivity.
    - intros file_path metadata on_progress st st' result Hrun Hstage.
      unfold create_sheets_row. cbn [row_error_message].
      rewrite (process_document_summary_message _ _ _ _ Hrun);
        [reflexivity|].
      destruct Hstage as [Hp|[Hs _]]; [left|right]; assumption.
Qed.
End DocumentProcessorFacts.

  (** C7, on the code. The service raises "rate limit exceeded" on its
      first two calls and would answer the third; [max_retries] is 3. The
      summarization stage calls it once, sleeps no pause and returns a
      failed result with the rate-limit scenario: [summarize] has turned
      the error into a result before the retry wrapper could see it. *)
Theorem rate_limit_not_retried :
    let run :=
      _summarize_with_retry (U:=ascii_UnicodeOps) rate_limited_externals
        long_text (lit "en") (test_processor, fresh_world) in
    max_retries (Retry.config (retry_handler test_processor)) = 3
    /\ MIN_TEXT_FOR_SUMMARY <= len long_text
    /\ (exists res,
          fst run = Return res
          /\ sr_success res = false
          /\ sr_error_scenario res = Some API_RATE_LIMIT)
    /\ generation_calls (snd (snd run)) = 1%nat
    /\ pauses (snd (snd run)) = [].
Proof.
    intros run. split; [reflexivity|].
    split; [vm_compute; discriminate|].
    split.
    - eexists. split; [vm_compute; reflexivity|].
      split; reflexivity.
    - split; vm_compute; reflexivity.
Qed.

  (** The file "empty.txt" has no content: the run stops after the parse
      stage, and the generation service and the scorer are never called. *)
Lemma parse_failure_short_circuits_witness :
    let run :=
      process_document (U:=ascii_UnicodeOps) empty_file_externals detect_en
        (lit "empty.txt") test_metadata None (test_processor, fresh_world) in
    (exists result,
        fst run = Return result
        /\ status result = FAILED
        /\ error_scenario result = Some EMPTY_DOCUMENT)
    /\ generation_calls (snd (snd run)) = 0%nat
    /\ scorer_calls (snd (snd run)) = 0%nat.
Proof.
    intros run. subst run.
    rewrite (@parse_failure_short_circuits Q _ ascii_UnicodeOps TestWorld
               unit empty_file_externals detect_en
               test_processor test_processor (lit "empty.txt") test_metadata
               None fresh_world
               (mkTestWorld 0 0 1 [] [])
               (mkTestWorld 0 0 1 [log_upload test_metadata] [])
               (mkTestWorld 0 0 1 [log_upload test_metadata] [])
               (mkTestWorld 0 0 1 [log_upload test_metadata] [])
               0%Q
               (mkParseResult [] 0 false PLAIN_READ
                  (Some (lit "Document is empty")) (Some EMPTY_DOCUMENT)
                  false None)).
    - split; [eexists; split; [reflexivity|split; reflexivity]|].
      split; reflexivity.
    - reflexivity.
    - reflexivity.
    - reflexivity.
    - vm_compute. reflexivity.
    - reflexivity.
Defined.

  (** The file "notes.txt" holds "hello": the keyword stage fails with a
      message of its own, and the row has an empty error message. *)
Lemma sheets_row_error_message_witness :
    match fst (process_document (U:=ascii_UnicodeOps)
                 five_characters_externals detect_en (lit "notes.txt")
                 test_metadata None (test_processor, fresh_world)) with
    | Return result =>
        kr_error_message (keywords_result result)
        = Some (lit "Text is too short for keyword extraction")
        /\ row_error_message (create_sheets_row result) = []
    | Raise _ => False
    end.
Proof.
    destruct (process_document (U:=ascii_UnicodeOps)
                five_characters_externals detect_en (lit "notes.txt")
                test_metadata None (test_processor, fresh_world))
      as [[result|e] st'] eqn:Hrun; cbn [fst].
    - pose proof (proj2 (@sheets_row_error_message Q _ ascii_UnicodeOps
                           TestWorld unit five_characters_externals
                           detect_en)
                        _ _ _ _ _ _ Hrun) as Hrow.
      vm_compute in Hrun. injection Hrun as <- <-.
      split; [vm_compute; reflexivity|].
      apply Hrow. right. split; reflexivity.
    - vm_compute in Hrun. discriminate Hrun.
Defined.

End ProcessorProps.
